(** * panda-etl: the ChromaDB vector store (backend/app/vectorstore/chroma.py)

    A shallow embedding of the [ChromaDB] class and of the application
    [Settings] it reads (backend/app/config.py).

    - Python floats are IEEE 754 binary64 numbers: Rocq's primitive floats.
    - Python dicts with string keys are [gmap string _].
    - Exceptions are an error monad; the chromadb collection the store talks
      to is an interface ([Backend]); every call the store makes to it is
      recorded in a call log, the way a mock records calls in a test. *)

From Stdlib Require Import Floats ZArith.
From stdpp Require Import gmap strings list sorting pretty.

Set Warnings "-inexact-float".


(** ** Exceptions and results *)

Inductive exn : Type :=
| KeyError (key : string)
| IndexError
| TypeError
| AttributeError (name : string)
| ValueError (msg : string)
| BackendError (msg : string).

Inductive Res (A : Type) : Type :=
| Ok (a : A)
| Raise (e : exn).
Arguments Ok {A} a.
Arguments Raise {A} e.

(** Sequencing: an exception skips the rest. With these instances stdpp's
    [x ← r; k] reads as Python's statement sequence. *)
#[export] Instance res_ret : MRet Res := λ A a, Ok a.
#[export] Instance res_bind : MBind Res := λ A B f r,
  match r with
  | Ok a => f a
  | Raise e => Raise e
  end.

(** ** Python values that occur in a query result *)

Inductive pyval : Type :=
| PNone
| PStr (s : string)
| PFloat (f : float)
| PDict (d : gmap string string).

(** A metadata mapping, opaque to the store. *)
Abbreviation Metadata := (gmap string string).

(** chromadb.QueryResult: a dict from field name to a batch of lists. *)
Abbreviation QueryResult := (gmap string (list (list pyval))).

(** [d[key]] on a dict. *)
Definition dict_getitem {V} (d : gmap string V) (key : string) : Res V :=
  match d !! key with
  | Some v => Ok v
  | None => Raise (KeyError key)
  end.

(** [l[i]] on a list, for [i >= 0]. *)
Definition list_getitem {A} (l : list A) (i : nat) : Res A :=
  match l !! i with
  | Some x => Ok x
  | None => Raise IndexError
  end.

(** [a < b]: defined between floats, a TypeError for the other values. *)
Definition py_lt (a b : pyval) : Res bool :=
  match a, b with
  | PFloat x, PFloat y => Ok (PrimFloat.ltb x y)
  | _, _ => Raise TypeError
  end.

(** A 4-tuple [(doc, distance, metadata, ids)]. *)
Definition row : Type := pyval * pyval * pyval * pyval.

(** [data[i]] on such a tuple. *)
Definition tuple_getitem (data : row) (i : nat) : Res pyval :=
  let '(doc, distance, metadata, ids) := data in
  match i with
  | 0 => Ok doc
  | 1 => Ok distance
  | 2 => Ok metadata
  | 3 => Ok ids
  | _ => Raise IndexError
  end.

(** [zip(a, b, c, d)]: stops at the shortest argument. *)
Fixpoint zip4 (a b c d : list pyval) : list row :=
  match a, b, c, d with
  | x :: a', y :: b', z :: c', u :: d' => (x, y, z, u) :: zip4 a' b' c' d'
  | _, _, _, _ => []
  end.

(** [[f(x) for x in l]] where [f] may raise is stdpp's [mapM]: left to
    right, the first exception ends the comprehension.
    [[x for x in l if p(x)]] where [p] may raise: *)
Fixpoint filterM {A} (p : A → Res bool) (l : list A) : Res (list A) :=
  match l with
  | [] => Ok []
  | x :: l' =>
      b ← p x; ys ← filterM p l'; Ok (if b : bool then x :: ys else ys)
  end.

(** [enumerate(l)]. *)
Definition enumerate {A} (l : list A) : list (nat * A) :=
  zip (seq 0 (length l)) l.

(** ** ChromaDB._filter_docs_based_on_distance (chroma.py 134-161) *)

Definition result_keys : list string :=
  ["documents"; "distances"; "metadatas"; "ids"].

Definition row_below (threshold : float) (data : row) : Res bool :=
  let '(doc, distance, metadata, ids) := data in
  py_lt distance (PFloat threshold).

(** The dict comprehension of lines 158-161: one entry per key, in the
    order of [enumerate]. *)
Fixpoint build_columns (filtered_data : list row) (keys : list (nat * string))
    (acc : QueryResult) : Res QueryResult :=
  match keys with
  | [] => Ok acc
  | (i, key) :: keys' =>
      col ← mapM (λ data, tuple_getitem data i) filtered_data;
      build_columns filtered_data keys' (<[key := [col]]> acc)
  end.

Definition _filter_docs_based_on_distance
    (documents : QueryResult) (threshold : float) : Res QueryResult :=
  d0 ← dict_getitem documents "documents"; docs ← list_getitem d0 0;
  d1 ← dict_getitem documents "distances"; dists ← list_getitem d1 0;
  d2 ← dict_getitem documents "metadatas"; metas ← list_getitem d2 0;
  d3 ← dict_getitem documents "ids"; idl ← list_getitem d3 0;
  filtered_data ← filterM (row_below threshold) (zip4 docs dists metas idl);
  build_columns filtered_data (enumerate result_keys) ∅.

(** A query result for one question, from its four columns. *)
Definition query_result (docs : list string) (dists : list float)
    (metas : list Metadata) (ids : list string) : QueryResult :=
  <["ids" := [PStr <$> ids]]>
  (<["metadatas" := [PDict <$> metas]]>
  (<["distances" := [PFloat <$> dists]]>
  (<["documents" := [PStr <$> docs]]> ∅))).

(** *** The filter on a result with fields left out

    chromadb.QueryResult declares its fields Optional: a field the query did
    not include is [None], and [None[0]] is a TypeError. The function
    above is this one on a result all of whose fields are lists. *)
Definition field_first_batch
    (documents : gmap string (option (list (list pyval)))) (key : string)
    : Res (list pyval) :=
  field ← dict_getitem documents key;
  match field with
  | Some batches => list_getitem batches 0
  | None => Raise TypeError
  end.

Definition _filter_docs_based_on_distance_optional
    (documents : gmap string (option (list (list pyval))))
    (threshold : float) : Res QueryResult :=
  docs ← field_first_batch documents "documents";
  dists ← field_first_batch documents "distances";
  metas ← field_first_batch documents "metadatas";
  idl ← field_first_batch documents "ids";
  filtered_data ← filterM (row_below threshold) (zip4 docs dists metas idl);
  build_columns filtered_data (enumerate result_keys) ∅.

(** ** The chromadb API the store calls *)

(** chromadb.config.Settings, the fields the store sets or reads. *)
Record ChromaSettings : Type := {
  is_persistent : bool;
  anonymized_telemetry : bool;
  persist_directory : string;
}.

(** [config.Settings(is_persistent=.., anonymized_telemetry=..)]:
    chromadb's own default for [persist_directory] is "./chroma". *)
Definition config_Settings (is_persistent anonymized_telemetry : bool)
    : ChromaSettings :=
  {| is_persistent := is_persistent;
     anonymized_telemetry := anonymized_telemetry;
     persist_directory := "./chroma" |}.

Definition set_persist_directory (s : ChromaSettings) (path : string)
    : ChromaSettings :=
  {| is_persistent := is_persistent s;
     anonymized_telemetry := anonymized_telemetry s;
     persist_directory := path |}.

(** [Callable[[List[str]], List[float]]]. *)
Definition EmbeddingFunction : Type := list string → list float.

(** The client and the collection of chromadb: what each call answers and
    how it changes the collection. A call may raise. [get] answers a
    sequence of records, each a dict: the store iterates over the answer and
    reads ["id"] of each element. *)
Class Backend : Type := {
  Client : Type;
  Collection : Type;
  DEFAULT_EMBEDDING_FUNCTION : EmbeddingFunction;
  chromadb_Client : ChromaSettings → Res Client;
  get_or_create_collection :
    Client → string → EmbeddingFunction → Res Collection;
  collection_add :
    list string → option (list Metadata) → list string →
    Collection → Res unit * Collection;
  collection_get :
    Metadata → Collection → Res (list (gmap string string)) * Collection;
  collection_delete :
    option (list string) → Collection → Res unit * Collection;
  collection_query :
    string → Z → list string → Collection → Res QueryResult * Collection;
}.

(** A call made on [self._docs_collection], with its keyword arguments. *)
Inductive Call : Type :=
| CallAdd (documents : list string) (metadatas : option (list Metadata))
          (ids : list string)
| CallGet (where_ : Metadata)
| CallDelete (ids : option (list string))
| CallQuery (query_texts : string) (n_results : Z) (include : list string).

Section Store.
Context `{B : Backend}.

(** What a method runs in: the collection, the calls made on it so far, and
    the values [uuid.uuid4()] gives, with how many were drawn. *)
Record World : Type := {
  docs_collection : Collection;
  calls : list Call;
  uuid_values : nat → string;
  uuid_drawn : nat;
}.

Definition M (A : Type) : Type := World → Res A * World.

#[export] Instance M_ret : MRet M := λ A a w, (Ok a, w).
#[export] Instance M_bind : MBind M := λ A B f m w,
  match m w with
  | (Ok a, w') => f a w'
  | (Raise e, w') => (Raise e, w')
  end.

(** A computation that touches nothing. *)
Definition lift {A} (r : Res A) : M A := λ w, (r, w).

(** A call on the collection: logged, then answered by the backend. *)
Definition on_collection {A} (c : Call)
    (op : Collection → Res A * Collection) : M A := λ w,
  let '(r, coll') := op (docs_collection w) in
  (r, {| docs_collection := coll';
         calls := calls w ++ [c];
         uuid_values := uuid_values w;
         uuid_drawn := uuid_drawn w |}).

(** [str(uuid.uuid4())]. *)
Definition uuid4 : M string := λ w,
  (Ok (uuid_values w (uuid_drawn w)),
   {| docs_collection := docs_collection w;
      calls := calls w;
      uuid_values := uuid_values w;
      uuid_drawn := S (uuid_drawn w) |}).

(** ** The store *)

(** The attributes the methods read. [self._docs_collection] is the
    collection of the [World]. *)
Record ChromaDB : Type := {
  _max_samples : Z;
  _similarity_threshold : float;
  _client_settings : ChromaSettings;
  _client : Client;
  _persist_directory : string;
  _embedding_function : EmbeddingFunction;
}.

(** *** add_docs (chroma.py 64-88)
    The body has no [return]: the call evaluates to Python's [None], here
    the [None] of [option]. *)
Definition add_docs (docs : list string) (ids : option (list string))
    (metadatas : option (list Metadata)) : M (option (list string)) :=
  ids ← match ids with
        | None => mapM (λ _, u ← uuid4; mret (u +:+ "-docs")) docs
        | Some ids => mret ids
        end;
  _ ← on_collection (CallAdd docs metadatas ids)
        (collection_add docs metadatas ids);
  mret None.

(** *** delete_docs (chroma.py 90-108) *)
Definition delete_docs (ids : option (list string))
    (metadata_criteria : option Metadata) : M bool :=
  ids ← match ids, metadata_criteria with
        | None, Some where_ =>
            records_to_delete ← on_collection (CallGet where_)
                                  (collection_get where_);
            ids ← lift (mapM (λ record, dict_getitem record "id")
                          records_to_delete);
            mret (Some ids)
        | _, _ => mret ids
        end;
  _ ← on_collection (CallDelete ids) (collection_delete ids);
  mret true.

(** [k or self._max_samples]: [None] and [0] are falsy. *)
Definition k_or (k : option Z) (max_samples : Z) : Z :=
  match k with
  | Some k' => if (k' =? 0)%Z then max_samples else k'
  | None => max_samples
  end.

(** *** get_relevant_docs (chroma.py 110-124) *)
Definition get_relevant_docs (self : ChromaDB) (question : string)
    (k : option Z) : M QueryResult :=
  let k := k_or k (_max_samples self) in
  relevant_data ← on_collection
      (CallQuery question k ["metadatas"; "documents"; "distances"])
      (collection_query question k ["metadatas"; "documents"; "distances"]);
  lift (_filter_docs_based_on_distance relevant_data
          (_similarity_threshold self)).

(** *** get_relevant_docs_documents (chroma.py 126-132) *)
Definition get_relevant_docs_documents (self : ChromaDB) (question : string)
    (k : option Z) : M (list pyval) :=
  r ← get_relevant_docs self question k;
  d ← lift (dict_getitem r "documents");
  lift (list_getitem d 0).

End Store.

(** *** delete_docs on whatever the lookup answers

    [collection_get] above answers a sequence of records, each a dict.
    chromadb's own [Collection.get] answers one dict, from field name
    ("ids", "embeddings", "metadatas", "documents") to a column. A [for] over
    a dict gives its keys, and a key is a [str]: subscripting it with
    ["id"] is a TypeError. Here the lookup may answer either. *)
Inductive GetAnswer : Type :=
| Records (records : list (gmap string string))
| Columns (fields : list (string * option (list pyval))).

(** [[record["id"] for record in records_to_delete]] (line 105). *)
Definition ids_of_answer (records_to_delete : GetAnswer)
    : Res (list string) :=
  match records_to_delete with
  | Records records => mapM (λ record, dict_getitem record "id") records
  | Columns fields =>
      mapM (λ record : string * option (list pyval), Raise TypeError) fields
  end.

Section StoreAnyLookup.
Context `{B : Backend}.
Variable collection_get_any :
  Metadata → Collection → Res GetAnswer * Collection.

Definition delete_docs_any (ids : option (list string))
    (metadata_criteria : option Metadata) : M bool :=
  ids ← match ids, metadata_criteria with
        | None, Some where_ =>
            records_to_delete ← on_collection (CallGet where_)
                                  (collection_get_any where_);
            ids ← lift (ids_of_answer records_to_delete);
            mret (Some ids)
        | _, _ => mret ids
        end;
  _ ← on_collection (CallDelete ids) (collection_delete ids);
  mret true.

End StoreAnyLookup.

(** ** app.config.Settings (config.py 9-17) *)

(** The fields the class declares. [load_dotenv] and the environment give
    [sqlalchemy_database_url]; [upload_dir] has a default. *)
Record Settings : Type := {
  sqlalchemy_database_url : string;
  upload_dir : string;
}.

(** [settings.<name>]: the class declares two fields and does not allow
    others, so any other name is an AttributeError. *)
Definition Settings_getattr (settings : Settings) (name : string)
    : Res string :=
  if decide (name = "sqlalchemy_database_url")
  then Ok (sqlalchemy_database_url settings)
  else if decide (name = "upload_dir")
  then Ok (upload_dir settings)
  else Raise (AttributeError name).

(** ** ChromaDB.__init__ (chroma.py 21-62) *)

Section Init.
Context `{B : Backend}.

(** The keyword arguments of the constructor. *)
Record InitArgs : Type := {
  collection_name : string;
  embedding_function : option EmbeddingFunction;
  persist_path : option string;
  client_settings : option ChromaSettings;
  max_samples : Z;
  similary_threshold : float;
}.

(** The defaults of the signature. *)
Definition default_args : InitArgs :=
  {| collection_name := "bamboo-etl";
     embedding_function := None;
     persist_path := None;
     client_settings := None;
     max_samples := 3;
     similary_threshold := 1.5 |}.

(** Truth value of an [Optional[str]]: [None] and the empty string are
    falsy. *)
Definition str_truthy (s : option string) : option string :=
  match s with
  | Some EmptyString => None
  | Some p => Some p
  | None => None
  end.

(** Lines 35-52: the settings the client is created from. A settings object
    is always truthy. *)
Definition resolve_client_settings (settings : Settings)
    (persist_path : option string) (client_settings : option ChromaSettings)
    : Res ChromaSettings :=
  match client_settings with
  | Some client_settings =>
      Ok (set_persist_directory client_settings
            (default (persist_directory client_settings)
                     (str_truthy persist_path)))
  | None =>
      match str_truthy persist_path with
      | Some persist_path =>
          Ok (set_persist_directory (config_Settings true false) persist_path)
      | None =>
          let _client_settings := config_Settings true false in
          chromadb_url ← Settings_getattr settings "chromadb_url";
          Ok (set_persist_directory _client_settings chromadb_url)
      end
  end.

(** The constructor: the store and the collection it got or created. *)
Definition ChromaDB_init (settings : Settings) (args : InitArgs)
    : Res (ChromaDB * Collection) :=
  _client_settings ← resolve_client_settings settings
                       (persist_path args) (client_settings args);
  client ← chromadb_Client _client_settings;
  let ef := default DEFAULT_EMBEDDING_FUNCTION (embedding_function args) in
  coll ← get_or_create_collection client (collection_name args) ef;
  Ok ({| _max_samples := max_samples args;
         _similarity_threshold := similary_threshold args;
         _client_settings := _client_settings;
         _client := client;
         _persist_directory := persist_directory _client_settings;
         _embedding_function := ef |}, coll).

End Init.

(** *** The constructor on settings objects

    Lines 36-39 assign to [client_settings.persist_directory] and keep the
    object itself as [self._client_settings]: the caller's object and the
    store's attribute are one object. Here settings objects live in a heap
    and are named by references (numbers); [client_settings] and
    [self._client_settings] are references. The strings and numbers a store
    holds are immutable and stay values. *)
Module Obj.

Section Objects.
Context `{B : Backend}.

Record ChromaDB : Type := {
  _max_samples : Z;
  _similarity_threshold : float;
  _client_settings : nat;
  _client : Client;
  _persist_directory : string;
  _embedding_function : EmbeddingFunction;
}.

Record InitArgs : Type := {
  collection_name : string;
  embedding_function : option EmbeddingFunction;
  persist_path : option string;
  client_settings : option nat;
  max_samples : Z;
  similary_threshold : float;
}.

(** [config.Settings(...)]: a new object, at a reference not in use. *)
Definition new_Settings (is_persistent anonymized_telemetry : bool)
    (h : gmap nat ChromaSettings) : nat * gmap nat ChromaSettings :=
  let l := fresh (dom h) in
  (l, <[l := config_Settings is_persistent anonymized_telemetry]> h).

(** [obj.persist_directory = path] on the object at [l]. *)
Definition assign_persist_directory (l : nat) (path : string)
    (h : gmap nat ChromaSettings) : gmap nat ChromaSettings :=
  alter (λ obj, set_persist_directory obj path) l h.

(** Lines 35-52: the reference bound to [_client_settings], and the heap
    the assignments leave. A reference to no object is not a state Python
    can be in; the model raises there. *)
Definition resolve_client_settings (settings : Settings)
    (persist_path : option string) (client_settings : option nat)
    (h : gmap nat ChromaSettings) : Res nat * gmap nat ChromaSettings :=
  match client_settings with
  | Some client_settings =>
      match h !! client_settings with
      | Some obj =>
          (Ok client_settings,
           assign_persist_directory client_settings
             (default (persist_directory obj) (str_truthy persist_path)) h)
      | None => (Raise (ValueError "no object at this reference"), h)
      end
  | None =>
      match str_truthy persist_path with
      | Some persist_path =>
          let '(_client_settings, h) := new_Settings true false h in
          (Ok _client_settings,
           assign_persist_directory _client_settings persist_path h)
      | None =>
          let '(_client_settings, h) := new_Settings true false h in
          match Settings_getattr settings "chromadb_url" with
          | Ok chromadb_url =>
              (Ok _client_settings,
               assign_persist_directory _client_settings chromadb_url h)
          | Raise e => (Raise e, h)
          end
      end
  end.

(** Lines 54-62, reading the object where an attribute of it is read. *)
Definition init (settings : Settings) (args : InitArgs)
    (h : gmap nat ChromaSettings)
    : Res (ChromaDB * Collection) * gmap nat ChromaSettings :=
  match resolve_client_settings settings (persist_path args)
          (client_settings args) h with
  | (Raise e, h) => (Raise e, h)
  | (Ok _client_settings, h) =>
      (obj ← match h !! _client_settings with
             | Some obj => Ok obj
             | None => Raise (ValueError "no object at this reference")
             end;
       client ← chromadb_Client obj;
       let ef := default DEFAULT_EMBEDDING_FUNCTION
                         (embedding_function args) in
       coll ← get_or_create_collection client (collection_name args) ef;
       Ok ({| _max_samples := max_samples args;
              _similarity_threshold := similary_threshold args;
              _client_settings := _client_settings;
              _client := client;
              _persist_directory := persist_directory obj;
              _embedding_function := ef |}, coll),
       h)
  end.

(** [self._client_settings.persist_directory], read in the heap [h]. *)
Definition client_settings_directory (self : ChromaDB)
    (h : gmap nat ChromaSettings) : option string :=
  persist_directory <$> h !! _client_settings self.

End Objects.

End Obj.

(** ** A backend for running the store: a collection kept in a list

    The records are (id, document, metadata) in insertion order. [add] pairs
    its arguments up, [get] answers the records whose metadata contain the
    criteria, [delete] removes the given ids and, given no ids, every
    record; [query] answers what the collection was loaded with, cut to
    [n_results] candidates. *)
Module Mock.

Record Coll : Type := {
  records : list (string * string * Metadata);
  answer : list (string * float * Metadata * string);
}.

Definition empty : Coll := {| records := []; answer := [] |}.

Definition add (docs : list string) (metadatas : option (list Metadata))
    (ids : list string) (c : Coll) : Res unit * Coll :=
  let metas := default (replicate (length docs) ∅) metadatas in
  (Ok (), {| records := records c ++ zip (zip ids docs) metas;
             answer := answer c |}).

Definition record_dict (r : string * string * Metadata) : gmap string string :=
  let '(id, doc, _) := r in <["document" := doc]> {["id" := id]}.

Definition get (where_ : Metadata) (c : Coll)
    : Res (list (gmap string string)) * Coll :=
  (Ok (record_dict <$>
         filter (λ r : string * string * Metadata, where_ ⊆ r.2) (records c)),
   c).

Definition delete (ids : option (list string)) (c : Coll) : Res unit * Coll :=
  (Ok (), {| records :=
               match ids with
               | Some ids =>
                   filter (λ r : string * string * Metadata, r.1.1 ∉ ids)
                          (records c)
               | None => []
               end;
             answer := answer c |}).

Definition query (question : string) (n_results : Z) (include : list string)
    (c : Coll) : Res QueryResult * Coll :=
  let top := take (Z.to_nat n_results) (answer c) in
  (Ok (query_result (top.*1.*1.*1) (top.*1.*1.*2) (top.*1.*2) (top.*2)), c).

#[global] Instance backend : Backend := {|
  Client := ChromaSettings;
  Collection := Coll;
  DEFAULT_EMBEDDING_FUNCTION := λ texts, [];
  chromadb_Client := λ s, Ok s;
  get_or_create_collection := λ _ _ _, Ok empty;
  collection_add := add;
  collection_get := get;
  collection_delete := delete;
  collection_query := query;
|}.

(** A lookup that answers the way chromadb's does: one dict of columns. *)
Definition get_columns (where_ : Metadata) (c : Coll)
    : Res GetAnswer * Coll :=
  let found := filter (λ r : string * string * Metadata, where_ ⊆ r.2)
                      (records c) in
  (Ok (Columns [("ids", Some (PStr <$> found.*1.*1));
                ("embeddings", None);
                ("metadatas", Some (PDict <$> found.*2));
                ("documents", Some (PStr <$> found.*1.*2))]),
   c).

(** The lookup of [backend], as a sequence of records. *)
Definition get_records (where_ : Metadata) (c : Coll)
    : Res GetAnswer * Coll :=
  (Ok (Records (record_dict <$>
         filter (λ r : string * string * Metadata, where_ ⊆ r.2) (records c))),
   c).

Definition world (c : Coll) : World :=
  {| docs_collection := c;
     calls := [];
     uuid_values := λ n, "uuid" +:+ pretty n;
     uuid_drawn := 0 |}.

End Mock.

(** ** Vocabulary of the statements *)

(** The elements of [l] at the positions [idx], in the order of [idx]. *)
Definition select {A} (idx : list nat) (l : list A) : list A :=
  omap (λ i, l !! i) idx.

(** The positions of [l], counted from [i], whose element satisfies [q]. *)
Fixpoint positions_from {A} (q : A → bool) (i : nat) (l : list A) : list nat :=
  match l with
  | [] => []
  | x :: l' =>
      if q x then i :: positions_from q (S i) l' else positions_from q (S i) l'
  end.

(** The test of line 155 on a row whose distance is a float. *)
Definition below (threshold : float) (data : row) : bool :=
  match data.1.1.2 with
  | PFloat d => PrimFloat.ltb d threshold
  | _ => false
  end.

Definition float_distance (data : row) : Prop :=
  ∃ d, data.1.1.2 = PFloat d.

(** The dict the comprehension of lines 158-161 builds from the rows. *)
Definition columns (rows : list row) : QueryResult :=
  <["ids" := [rows.*2]]>
  (<["metadatas" := [rows.*1.*2]]>
  (<["distances" := [rows.*1.*1.*2]]>
  (<["documents" := [rows.*1.*1.*1]]> ∅))).

(** [raw[key][0]]: the candidates of the first (only) question. *)
Definition first_batch (raw : QueryResult) (key : string) : Res (list pyval) :=
  d ← dict_getitem raw key; list_getitem d 0.

Section Worlds.
Context `{B : Backend}.

(** The world after a call [c] that left the collection as [coll]. *)
Definition after_call (c : Call) (coll : Collection) (w : World) : World :=
  {| docs_collection := coll;
     calls := calls w ++ [c];
     uuid_values := uuid_values w;
     uuid_drawn := uuid_drawn w |}.

Definition query_include : list string :=
  ["metadatas"; "documents"; "distances"].

(** The world after [n] draws of [uuid.uuid4()], and the ids line 82 makes
    of them. *)
Definition drawn (n : nat) (w : World) : World :=
  {| docs_collection := docs_collection w;
     calls := calls w;
     uuid_values := uuid_values w;
     uuid_drawn := uuid_drawn w + n |}.

Definition generated_ids (n : nat) (w : World) : list string :=
  (λ i, uuid_values w (uuid_drawn w + i) +:+ "-docs") <$> seq 0 n.

End Worlds.

(** ** Fixtures on the list backend *)

Module Fixture.

(** Built with a path: [ChromaDB(persist_path="./db")]. *)
Definition args : InitArgs :=
  {| collection_name := "bamboo-etl";
     embedding_function := None;
     persist_path := Some "./db";
     client_settings := None;
     max_samples := 3;
     similary_threshold := 1.5 |}.

(** Built with another path: [ChromaDB(persist_path="./other")]. *)
Definition other_args : InitArgs :=
  {| collection_name := "bamboo-etl";
     embedding_function := None;
     persist_path := Some "./other";
     client_settings := None;
     max_samples := 3;
     similary_threshold := 1.5 |}.

Definition app_settings : Settings :=
  {| sqlalchemy_database_url := "sqlite:///./app.db";
     upload_dir := "uploads" |}.

Definition store : ChromaDB (B := Mock.backend) :=
  {| _max_samples := 3;
     _similarity_threshold := 1.5;
     _client_settings := {| is_persistent := true;
                            anonymized_telemetry := false;
                            persist_directory := "./db" |};
     _client := {| is_persistent := true;
                   anonymized_telemetry := false;
                   persist_directory := "./db" |};
     _persist_directory := "./db";
     _embedding_function := DEFAULT_EMBEDDING_FUNCTION |}.

(** Four candidates, closest first. *)
Definition loaded : Mock.Coll :=
  {| Mock.records := [("1", "a", {["topic" := "x"]});
                      ("3", "c", {["topic" := "y"]});
                      ("2", "b", {["topic" := "x"]});
                      ("4", "d", ∅)];
     Mock.answer := [("a", 0.3, ∅, "1"); ("c", 0.9, ∅, "3");
                     ("b", 1.6, ∅, "2"); ("d", 2.0, ∅, "4")]%float |}.

(** One settings object, at reference 0, and two calls that pass it:
    [ChromaDB(persist_path="./db", client_settings=obj)] and the same with
    "./other". *)
Definition heap : gmap nat ChromaSettings :=
  {[ 0 := config_Settings false true ]}.

Definition obj_args : Obj.InitArgs :=
  {| Obj.collection_name := "bamboo-etl";
     Obj.embedding_function := None;
     Obj.persist_path := Some "./db";
     Obj.client_settings := Some 0;
     Obj.max_samples := 3;
     Obj.similary_threshold := 1.5 |}.

Definition obj_other_args : Obj.InitArgs :=
  {| Obj.collection_name := "bamboo-etl";
     Obj.embedding_function := None;
     Obj.persist_path := Some "./other";
     Obj.client_settings := Some 0;
     Obj.max_samples := 3;
     Obj.similary_threshold := 1.5 |}.

Definition obj_store : Obj.ChromaDB (B := Mock.backend) :=
  {| Obj._max_samples := 3;
     Obj._similarity_threshold := 1.5;
     Obj._client_settings := 0;
     Obj._client := {| is_persistent := false;
                       anonymized_telemetry := true;
                       persist_directory := "./db" |};
     Obj._persist_directory := "./db";
     Obj._embedding_function := DEFAULT_EMBEDDING_FUNCTION |}.

(** Four candidates below 1.5, closest first. *)
Definition near : Mock.Coll :=
  {| Mock.records := [("1", "a", ∅); ("3", "c", ∅); ("2", "b", ∅);
                      ("4", "d", ∅)];
     Mock.answer := [("a", 0.3, ∅, "1"); ("c", 0.9, ∅, "3");
                     ("b", 1.1, ∅, "2"); ("d", 1.2, ∅, "4")]%float |}.

(** Two candidates, none below 1.5. *)
Definition far : Mock.Coll :=
  {| Mock.records := [("2", "b", ∅); ("4", "d", ∅)];
     Mock.answer := [("b", 1.5, ∅, "2"); ("d", 2.0, ∅, "4")]%float |}.

End Fixture.

(** * Properties *)

(** ** The model runs *)

Example filter_spec_example :
  _filter_docs_based_on_distance
    (query_result ["a"; "b"; "c"; "d"] [0.3; 1.6; 0.9; 2.0]%float
                  [∅; ∅; ∅; ∅] ["1"; "2"; "3"; "4"]) 1.5%float
  = Ok (query_result ["a"; "c"] [0.3; 0.9]%float [∅; ∅] ["1"; "3"]).
Proof. reflexivity. Qed.

Example add_docs_generates_ids :
  let '(r, w) := add_docs ["a"; "b"] None None (Mock.world Mock.empty) in
  r = Ok None
  ∧ calls w = [CallAdd ["a"; "b"] None ["uuid0-docs"; "uuid1-docs"]]
  ∧ Mock.records (docs_collection w)
    = [("uuid0-docs", "a", ∅); ("uuid1-docs", "b", ∅)]
  ∧ uuid_drawn w = 2.
Proof. repeat split; reflexivity. Qed.

Example filter_boundary_example :
  _filter_docs_based_on_distance
    (query_result ["a"; "b"] [1.5; 1.25]%float [∅; ∅] ["1"; "2"]) 1.5%float
  = Ok (query_result ["b"] [1.25]%float [∅] ["2"]).
Proof. reflexivity. Qed.

Example filter_not_a_float_example :
  _filter_docs_based_on_distance
    (<["distances" := [[PNone]]]> (query_result ["a"] [] [∅] ["1"])) 1.5%float
  = Raise TypeError.
Proof. reflexivity. Qed.

Example get_relevant_docs_example :
  (get_relevant_docs Fixture.store "q" None (Mock.world Fixture.loaded)).1
  = Ok (query_result ["a"; "c"] [0.3; 0.9]%float [∅; ∅] ["1"; "3"])
  ∧ calls (get_relevant_docs Fixture.store "q" None
             (Mock.world Fixture.loaded)).2
    = [CallQuery "q" 3 ["metadatas"; "documents"; "distances"]].
Proof. repeat split; reflexivity. Qed.

Example get_relevant_docs_documents_example :
  (get_relevant_docs_documents Fixture.store "q" (Some 4%Z)
     (Mock.world Fixture.loaded)).1
  = Ok [PStr "a"; PStr "c"].
Proof. reflexivity. Qed.

Example delete_docs_by_criteria_example :
  (delete_docs None (Some {["topic" := "x"]}) (Mock.world Fixture.loaded)).1
  = Ok true
  ∧ calls (delete_docs None (Some {["topic" := "x"]})
             (Mock.world Fixture.loaded)).2
    = [CallGet {["topic" := "x"]}; CallDelete (Some ["1"; "2"])]
  ∧ Mock.records
      (docs_collection (delete_docs None (Some {["topic" := "x"]})
                          (Mock.world Fixture.loaded)).2)
    = [("3", "c", {["topic" := "y"]}); ("4", "d", ∅)].
Proof. repeat split; reflexivity. Qed.

Example ChromaDB_init_path_example :
  ChromaDB_init Fixture.app_settings Fixture.args
  = Ok (Fixture.store, Mock.empty).
Proof. reflexivity. Qed.

Example ChromaDB_init_settings_and_path_example :
  match ChromaDB_init (B := Mock.backend) Fixture.app_settings
          {| collection_name := "bamboo-etl"; embedding_function := None;
             persist_path := Some "./db";
             client_settings := Some (config_Settings false true);
             max_samples := 3; similary_threshold := 1.5 |} with
  | Ok (self, _) => Some (_persist_directory self, _client_settings self)
  | Raise _ => None
  end
  = Some ("./db", {| is_persistent := false; anonymized_telemetry := true;
                     persist_directory := "./db" |}).
Proof. reflexivity. Qed.

(** ** Comparison of floats *)

Lemma float_ltb_irrefl (t : float) : PrimFloat.ltb t t = false.
Proof.
  rewrite ltb_spec. unfold SFltb, SFcompare.
  destruct (Prim2SF t) as [[|]|[|]| |[|] m e]; simpl; try reflexivity.
  all: rewrite Z.compare_refl; simpl; rewrite Pos.compare_refl; reflexivity.
Qed.

(** ** Selecting positions of a list *)

Lemma filter_cons_bool {A} (q : A → bool) (x : A) (l : list A) :
  filter q (x :: l) = if q x then x :: filter q l else filter q l.
Proof.
  rewrite filter_cons. destruct (q x) eqn:Hx.
  - by rewrite decide_True.
  - rewrite decide_False; [done|]. simpl. tauto.
Qed.

Section Select.
Context {A : Type}.
Implicit Types (l : list A) (idx : list nat) (q : A → bool).

Lemma select_nil l : select [] l = [].
Proof. reflexivity. Qed.

Lemma select_cons i idx l :
  select (i :: idx) l
  = match l !! i with Some x => x :: select idx l | None => select idx l end.
Proof. reflexivity. Qed.

Lemma select_cons_Some i idx l x :
  l !! i = Some x → select (i :: idx) l = x :: select idx l.
Proof. intros Hx. by rewrite select_cons, Hx. Qed.

Lemma select_length idx l :
  Forall (λ i, i < length l) idx → length (select idx l) = length idx.
Proof.
  induction 1 as [|i idx Hi _ IH]; [done|].
  destruct (lookup_lt_is_Some_2 l i Hi) as [x Hx].
  rewrite (select_cons_Some _ _ _ _ Hx). simpl. by rewrite IH.
Qed.

Lemma elem_of_positions_from q i l j :
  j ∈ positions_from q i l ↔
  ∃ n x, j = i + n ∧ l !! n = Some x ∧ q x = true.
Proof.
  revert i. induction l as [|y l IH]; intros i; simpl.
  - split; [by intros ?%elem_of_nil|]. by intros (n & x & _ & ? & _).
  - assert (j ∈ positions_from q (S i) l ↔
            ∃ n x, j = i + S n ∧ l !! n = Some x ∧ q x = true) as IH'.
    { rewrite IH. split; intros (n & x & -> & ? & ?); exists n, x;
        (split; [lia|done]). }
    destruct (q y) eqn:Hy.
    + rewrite elem_of_cons, IH'. split.
      * intros [->|(n & x & -> & ? & ?)].
        -- exists 0, y. split; [lia|done].
        -- by exists (S n), x.
      * intros ([|n] & x & -> & Hx & ?).
        -- left. lia.
        -- right. by exists n, x.
    + rewrite IH'. split.
      * intros (n & x & -> & ? & ?). by exists (S n), x.
      * intros ([|n] & x & -> & Hx & ?).
        -- simpl in Hx. congruence.
        -- by exists n, x.
Qed.

Lemma positions_from_sorted q i l : StronglySorted lt (positions_from q i l).
Proof.
  revert i. induction l as [|y l IH]; intros i; simpl; [constructor|].
  destruct (q y); [|apply IH].
  constructor; [apply IH|].
  apply Forall_forall. intros j (n & x & -> & _)%elem_of_positions_from. lia.
Qed.

Lemma positions_from_bound q i l :
  Forall (λ j, i ≤ j < i + length l) (positions_from q i l).
Proof.
  apply Forall_forall. intros j (n & x & -> & Hn & _)%elem_of_positions_from.
  apply lookup_lt_Some in Hn. lia.
Qed.

(** Filtering a list is selecting the positions that pass the test. *)
Lemma select_positions_from q pre l :
  select (positions_from q (length pre) l) (pre ++ l) = filter q l.
Proof.
  revert pre. induction l as [|y l IH]; intros pre; [done|].
  assert (select (positions_from q (S (length pre)) l) (pre ++ y :: l)
          = filter q l) as IH'.
  { specialize (IH (pre ++ [y])).
    by rewrite length_app, Nat.add_1_r, <- app_assoc in IH. }
  cbn [positions_from]. rewrite filter_cons_bool. destruct (q y) eqn:Hy.
  - rewrite (select_cons_Some _ _ _ y), IH'; [done|].
    by rewrite list_lookup_middle.
  - by rewrite IH'.
Qed.

Lemma filter_select q l : filter q l = select (positions_from q 0 l) l.
Proof. by rewrite <- (select_positions_from q [] l). Qed.

End Select.

Lemma select_fmap {A C} (f : A → C) (idx : list nat) (l : list A) :
  select idx (f <$> l) = f <$> select idx l.
Proof.
  induction idx as [|i idx IH]; [done|].
  rewrite !select_cons, list_lookup_fmap, IH. by destruct (l !! i).
Qed.

(** ** The comprehensions of [_filter_docs_based_on_distance] *)

Lemma filterM_row_below_ok t rows :
  Forall float_distance rows →
  filterM (row_below t) rows = Ok (filter (below t) rows).
Proof.
  induction 1 as [|[[[doc dist] meta] id] rows [d Hd] _ IH]; [done|].
  simpl in Hd. subst dist. cbn [filterM]. rewrite IH, filter_cons_bool.
  by change (below t (doc, PFloat d, meta, id)) with (PrimFloat.ltb d t).
Qed.

Lemma filterM_row_below_inv t rows rows' :
  filterM (row_below t) rows = Ok rows' →
  Forall float_distance rows ∧ rows' = filter (below t) rows.
Proof.
  revert rows'.
  induction rows as [|[[[doc dist] meta] id] rows IH]; intros rows' Hf.
  { simpl in Hf. by injection Hf as <-. }
  cbn [filterM] in Hf. destruct dist as [| |d|]; try discriminate Hf.
  simpl in Hf. destruct (filterM (row_below t) rows) as [ys|]; [|done].
  destruct (IH ys eq_refl) as [Hall ->]. split.
  - constructor; [by exists d|done].
  - rewrite filter_cons_bool.
    change (below t (doc, PFloat d, meta, id)) with (PrimFloat.ltb d t).
    by injection Hf as <-.
Qed.

Lemma zip4_lookup (a b c d : list pyval) (i : nat) :
  zip4 a b c d !! i
  = x ← a !! i; y ← b !! i; z ← c !! i; u ← d !! i; Some (x, y, z, u).
Proof.
  revert b c d i.
  induction a as [|x a IH]; intros [|y b] [|z c] [|u d] [|i]; simpl;
    try done; try apply IH.
  all: repeat (destruct (_ !! i); simpl; try done).
Qed.

(** Selecting rows of a zip selects the same positions of each column. *)
Lemma select_zip4 (a b c d : list pyval) (idx : list nat) :
  let rows := select idx (zip4 a b c d) in
  Forall (λ i, i < length (zip4 a b c d)) idx →
  rows.*1.*1.*1 = select idx a ∧ rows.*1.*1.*2 = select idx b
  ∧ rows.*1.*2 = select idx c ∧ rows.*2 = select idx d.
Proof.
  intros rows. subst rows. induction 1 as [|i idx Hi _ IH]; [done|].
  destruct (lookup_lt_is_Some_2 _ _ Hi) as [r Hr].
  rewrite (select_cons_Some _ _ _ _ Hr).
  rewrite zip4_lookup in Hr.
  destruct (a !! i) as [x|] eqn:Ha; [|done].
  destruct (b !! i) as [y|] eqn:Hb; [|done].
  destruct (c !! i) as [z|] eqn:Hc; [|done].
  destruct (d !! i) as [u|] eqn:Hd; [|done].
  simpl in Hr. injection Hr as <-.
  destruct IH as (E1 & E2 & E3 & E4).
  rewrite !select_cons, Ha, Hb, Hc, Hd, <- E1, <- E2, <- E3, <- E4. done.
Qed.

Lemma mapM_tuple_getitem (rows : list row) :
  mapM (λ data, tuple_getitem data 0) rows = Ok (rows.*1.*1.*1)
  ∧ mapM (λ data, tuple_getitem data 1) rows = Ok (rows.*1.*1.*2)
  ∧ mapM (λ data, tuple_getitem data 2) rows = Ok (rows.*1.*2)
  ∧ mapM (λ data, tuple_getitem data 3) rows = Ok (rows.*2).
Proof.
  induction rows as [|[[[doc dist] meta] id] rows (IH0 & IH1 & IH2 & IH3)];
    [done|].
  cbn [mapM]. cbn [mapM] in IH0, IH1, IH2, IH3.
  rewrite IH0, IH1, IH2, IH3. done.
Qed.

Lemma build_columns_ok (rows : list row) :
  build_columns rows (enumerate result_keys) ∅ = Ok (columns rows).
Proof.
  destruct (mapM_tuple_getitem rows) as (H0 & H1 & H2 & H3).
  unfold enumerate, result_keys. cbn [length seq zip zip_with build_columns].
  rewrite H0. cbn [mbind res_bind]. rewrite H1. cbn [mbind res_bind].
  rewrite H2. cbn [mbind res_bind]. rewrite H3. reflexivity.
Qed.

(** ** [_filter_docs_based_on_distance] as a whole *)

Lemma filter_docs_unfold (raw : QueryResult) (t : float) :
  _filter_docs_based_on_distance raw t
  = (docs ← first_batch raw "documents";
     dists ← first_batch raw "distances";
     metas ← first_batch raw "metadatas";
     idl ← first_batch raw "ids";
     rows ← filterM (row_below t) (zip4 docs dists metas idl);
     Ok (columns rows)).
Proof.
  unfold _filter_docs_based_on_distance, first_batch.
  destruct (dict_getitem raw "documents") as [d0|]; [|done]. simpl.
  destruct (list_getitem d0 0) as [docs|]; [|done]. simpl.
  destruct (dict_getitem raw "distances") as [d1|]; [|done]. simpl.
  destruct (list_getitem d1 0) as [dists|]; [|done]. simpl.
  destruct (dict_getitem raw "metadatas") as [d2|]; [|done]. simpl.
  destruct (list_getitem d2 0) as [metas|]; [|done]. simpl.
  destruct (dict_getitem raw "ids") as [d3|]; [|done]. simpl.
  destruct (list_getitem d3 0) as [idl|]; [|done]. simpl.
  destruct (filterM _ _) as [rows|]; [|done]. simpl.
  apply build_columns_ok.
Qed.

(** The rows that pass are the rows at the passing positions, and so are
    their columns. *)
Lemma columns_filter (t : float) (a b c d : list pyval) :
  let rows := zip4 a b c d in
  let kept := positions_from (below t) 0 rows in
  columns (filter (below t) rows)
  = <["ids" := [select kept d]]>
    (<["metadatas" := [select kept c]]>
    (<["distances" := [select kept b]]>
    (<["documents" := [select kept a]]> ∅))).
Proof.
  intros rows kept. rewrite filter_select. fold kept.
  destruct (select_zip4 a b c d kept) as (E1 & E2 & E3 & E4).
  { eapply Forall_impl; [apply positions_from_bound|].
    intros j [_ Hj]. exact Hj. }
  unfold columns. fold rows in E1, E2, E3, E4. by rewrite E1, E2, E3, E4.
Qed.

(** When the function returns, and what. *)
Lemma filter_docs_Ok (raw : QueryResult) (t : float) (r : QueryResult) :
  _filter_docs_based_on_distance raw t = Ok r ↔
  ∃ a b c d,
    first_batch raw "documents" = Ok a ∧ first_batch raw "distances" = Ok b
    ∧ first_batch raw "metadatas" = Ok c ∧ first_batch raw "ids" = Ok d
    ∧ Forall float_distance (zip4 a b c d)
    ∧ r = columns (filter (below t) (zip4 a b c d)).
Proof.
  rewrite filter_docs_unfold. split.
  - destruct (first_batch raw "documents") as [a|]; [|done].
    destruct (first_batch raw "distances") as [b|]; [|done].
    destruct (first_batch raw "metadatas") as [c|]; [|done].
    destruct (first_batch raw "ids") as [d|]; [|done]. simpl.
    destruct (filterM _ _) as [rows|] eqn:Hf; [|done]. simpl.
    intros [= <-]. apply filterM_row_below_inv in Hf as [Hall ->].
    by exists a, b, c, d.
  - intros (a & b & c & d & -> & -> & -> & -> & Hall & ->). simpl.
    by rewrite (filterM_row_below_ok t _ Hall).
Qed.

(** The first batch of a typed query result. *)
Lemma first_batch_query_result docs dists metas ids :
  let raw := query_result docs dists metas ids in
  first_batch raw "documents" = Ok (PStr <$> docs)
  ∧ first_batch raw "distances" = Ok (PFloat <$> dists)
  ∧ first_batch raw "metadatas" = Ok (PDict <$> metas)
  ∧ first_batch raw "ids" = Ok (PStr <$> ids).
Proof. done. Qed.

Lemma zip4_typed_lookup docs dists metas ids (i : nat) (data : row) :
  zip4 (PStr <$> docs) (PFloat <$> dists) (PDict <$> metas) (PStr <$> ids) !! i
    = Some data ↔
  ∃ doc d meta id,
    docs !! i = Some doc ∧ dists !! i = Some d ∧ metas !! i = Some meta
    ∧ ids !! i = Some id ∧ data = (PStr doc, PFloat d, PDict meta, PStr id).
Proof.
  rewrite zip4_lookup, !list_lookup_fmap.
  destruct (docs !! i) as [doc|]; simpl; [|by split; [|intros (?&?&?&?&?&?)]].
  destruct (dists !! i) as [d|]; simpl; [|by split; [|intros (?&?&?&?&?&?&?)]].
  destruct (metas !! i) as [meta|]; simpl;
    [|by split; [|intros (?&?&?&?&?&?&?&?)]].
  destruct (ids !! i) as [id|]; simpl;
    [|by split; [|intros (?&?&?&?&?&?&?&?&?)]].
  split.
  - intros [= <-]. by exists doc, d, meta, id.
  - by intros (?&?&?&?&[= <-]&[= <-]&[= <-]&[= <-]&->).
Qed.

Lemma zip4_typed_float_distance docs dists metas ids :
  Forall float_distance
    (zip4 (PStr <$> docs) (PFloat <$> dists) (PDict <$> metas) (PStr <$> ids)).
Proof.
  apply Forall_lookup. intros i data Hi.
  apply zip4_typed_lookup in Hi as (doc & d & meta & id & _ & _ & _ & _ & ->).
  by exists d.
Qed.

(** On a typed query result the function always returns. *)
Lemma filter_retains_positions docs dists metas ids (t : float) :
  ∃ r, _filter_docs_based_on_distance (query_result docs dists metas ids) t
       = Ok r.
Proof.
  eexists. apply filter_docs_Ok.
  exists (PStr <$> docs), (PFloat <$> dists), (PDict <$> metas), (PStr <$> ids).
  repeat (split; [done|]). split; [apply zip4_typed_float_distance|done].
Qed.

(** C1. FilterByDistance. For four columns of equal length and a threshold
    [t], [_filter_docs_based_on_distance] returns, and there is a strictly
    increasing list [kept] of positions, exactly the positions [i] with
    [distance[i] < t] (so never a position whose distance is [t] itself),
    such that each of the four output columns is the input column at the
    positions [kept], in that order. *)
Theorem filter_retains_exactly_below_threshold
    (docs : list string) (dists : list float) (metas : list Metadata)
    (ids : list string) (t : float) :
  length docs = length dists →
  length metas = length dists →
  length ids = length dists →
  ∃ kept : list nat,
    StronglySorted lt kept
    ∧ (∀ i, i ∈ kept ↔ ∃ d, dists !! i = Some d ∧ PrimFloat.ltb d t = true)
    ∧ (∀ i, dists !! i = Some t → i ∉ kept)
    ∧ _filter_docs_based_on_distance (query_result docs dists metas ids) t
      = Ok (query_result (select kept docs) (select kept dists)
                         (select kept metas) (select kept ids))
    ∧ length (select kept docs) = length kept
    ∧ length (select kept dists) = length kept
    ∧ length (select kept metas) = length kept
    ∧ length (select kept ids) = length kept.
Proof.
  intros Hdocs Hmetas Hids.
  set (rows := zip4 (PStr <$> docs) (PFloat <$> dists) (PDict <$> metas)
                    (PStr <$> ids)).
  set (kept := positions_from (below t) 0 rows).
  assert (∀ i, i ∈ kept ↔ ∃ d, dists !! i = Some d ∧ PrimFloat.ltb d t = true)
    as Hkept.
  { intros i. unfold kept. rewrite elem_of_positions_from. split.
    - intros (n & data & -> & Hn & Hlt).
      apply zip4_typed_lookup in Hn
        as (doc & d & meta & id & _ & Hd & _ & _ & ->).
      by exists d.
    - intros (d & Hd & Hlt).
      pose proof (lookup_lt_Some _ _ _ Hd) as Hi.
      destruct (lookup_lt_is_Some_2 docs i) as [doc Hdoc]; [lia|].
      destruct (lookup_lt_is_Some_2 metas i) as [meta Hmeta]; [lia|].
      destruct (lookup_lt_is_Some_2 ids i) as [id Hid]; [lia|].
      exists i, (PStr doc, PFloat d, PDict meta, PStr id).
      split; [done|]. split; [|done].
      apply zip4_typed_lookup. by exists doc, d, meta, id. }
  assert (Forall (λ i, i < length dists) kept) as Hbound.
  { apply Forall_forall. intros i (d & Hd & _)%Hkept.
    by apply lookup_lt_Some in Hd. }
  exists kept. split; [apply positions_from_sorted|]. split; [done|].
  split.
  { intros i Hi (d & Hd & Hlt)%Hkept.
    rewrite Hi in Hd. injection Hd as <-.
    by rewrite float_ltb_irrefl in Hlt. }
  split.
  { apply filter_docs_Ok.
    exists (PStr <$> docs), (PFloat <$> dists), (PDict <$> metas),
           (PStr <$> ids).
    repeat (split; [done|]). split; [apply zip4_typed_float_distance|].
    rewrite columns_filter. fold rows kept.
    by rewrite !select_fmap. }
  repeat split; apply select_length.
  - by rewrite Hdocs.
  - done.
  - by rewrite Hmetas.
  - by rewrite Hids.
Qed.

Lemma filter_retains_exactly_below_threshold_witness :
  ∃ kept : list nat,
    StronglySorted lt kept
    ∧ (∀ i, i ∈ kept ↔
            ∃ d, [0.3; 1.5; 0.9; 2.0]%float !! i = Some d
                 ∧ PrimFloat.ltb d 1.5 = true)
    ∧ (∀ i, [0.3; 1.5; 0.9; 2.0]%float !! i = Some 1.5%float → i ∉ kept)
    ∧ _filter_docs_based_on_distance
        (query_result ["a"; "b"; "c"; "d"] [0.3; 1.5; 0.9; 2.0]%float
                      [∅; ∅; ∅; ∅] ["1"; "2"; "3"; "4"]) 1.5
      = Ok (query_result (select kept ["a"; "b"; "c"; "d"])
                         (select kept [0.3; 1.5; 0.9; 2.0]%float)
                         (select kept ([∅; ∅; ∅; ∅] : list Metadata))
                         (select kept ["1"; "2"; "3"; "4"]))
    ∧ length (select kept ["a"; "b"; "c"; "d"]) = length kept
    ∧ length (select kept [0.3; 1.5; 0.9; 2.0]%float) = length kept
    ∧ length (select kept ([∅; ∅; ∅; ∅] : list Metadata)) = length kept
    ∧ length (select kept ["1"; "2"; "3"; "4"]) = length kept.
Proof.
  apply (filter_retains_exactly_below_threshold
           ["a"; "b"; "c"; "d"] [0.3; 1.5; 0.9; 2.0]%float
           [∅; ∅; ∅; ∅] ["1"; "2"; "3"; "4"] 1.5%float); reflexivity.
Defined.

(** ** The methods, one backend call at a time *)

Section StoreFacts.
Context `{B : Backend}.
Implicit Types (w : World) (self : ChromaDB).

Lemma get_relevant_docs_unfold self question k w :
  let n := k_or k (_max_samples self) in
  let answer := collection_query question n query_include (docs_collection w) in
  get_relevant_docs self question k w
  = (raw ← answer.1;
     _filter_docs_based_on_distance raw (_similarity_threshold self),
     after_call (CallQuery question n query_include) answer.2 w).
Proof.
  intros n answer. unfold get_relevant_docs, mbind, M_bind, on_collection.
  fold n. change (collection_query question n _ (docs_collection w)) with answer.
  by destruct answer as [[raw|e] coll].
Qed.

Lemma get_relevant_docs_documents_unfold self question k w :
  get_relevant_docs_documents self question k w
  = let '(r, w') := get_relevant_docs self question k w in
    (r ← r; d ← dict_getitem r "documents"; list_getitem d 0, w').
Proof.
  unfold get_relevant_docs_documents, mbind at 1, M_bind.
  destruct (get_relevant_docs self question k w) as [[r|e] w']; [|done].
  unfold mbind, M_bind, lift. simpl. by destruct (dict_getitem r "documents").
Qed.

Lemma delete_docs_unfold_ids ids metadata_criteria w :
  let answer := collection_delete (Some ids) (docs_collection w) in
  delete_docs (Some ids) metadata_criteria w
  = (_ ← answer.1; Ok true, after_call (CallDelete (Some ids)) answer.2 w).
Proof.
  intros answer. unfold delete_docs, mbind, M_bind, on_collection, mret, M_ret.
  change (collection_delete (Some ids) (docs_collection w)) with answer.
  by destruct answer as [[[]|e] coll].
Qed.

Lemma delete_docs_unfold_nothing w :
  let answer := collection_delete None (docs_collection w) in
  delete_docs None None w
  = (_ ← answer.1; Ok true, after_call (CallDelete None) answer.2 w).
Proof.
  intros answer. unfold delete_docs, mbind, M_bind, on_collection, mret, M_ret.
  change (collection_delete None (docs_collection w)) with answer.
  by destruct answer as [[[]|e] coll].
Qed.

Lemma delete_docs_unfold_criteria where_ w :
  let found := collection_get where_ (docs_collection w) in
  let w1 := after_call (CallGet where_) found.2 w in
  delete_docs None (Some where_) w
  = match found.1 with
    | Raise e => (Raise e, w1)
    | Ok records_to_delete =>
        match mapM (λ record, dict_getitem record "id") records_to_delete with
        | Raise e => (Raise e, w1)
        | Ok ids =>
            let answer := collection_delete (Some ids) found.2 in
            (_ ← answer.1; Ok true,
             after_call (CallDelete (Some ids)) answer.2 w1)
        end
    end.
Proof.
  intros found w1. unfold delete_docs, mbind at 1, M_bind at 1.
  unfold mbind at 1, M_bind at 1. unfold on_collection at 1.
  change (collection_get where_ (docs_collection w)) with found.
  destruct found as [[records|e] coll] eqn:Hfound; [|done].
  unfold mbind at 1, M_bind at 1, lift. subst w1. simpl.
  destruct (mapM _ records) as [ids|e]; [|done].
  unfold mret at 1, M_ret at 1, mbind, M_bind, on_collection. simpl.
  by destruct (collection_delete (Some ids) coll) as [[[]|e] coll'].
Qed.

Lemma add_docs_unfold_ids docs ids metadatas w :
  let answer := collection_add docs metadatas ids (docs_collection w) in
  add_docs docs (Some ids) metadatas w
  = (_ ← answer.1; Ok None, after_call (CallAdd docs metadatas ids) answer.2 w).
Proof.
  intros answer. unfold add_docs, mbind, M_bind, on_collection, mret, M_ret.
  change (collection_add docs metadatas ids (docs_collection w)) with answer.
  by destruct answer as [[[]|e] coll].
Qed.

End StoreFacts.

Lemma select_zip4_length (a b c d : list pyval) (idx : list nat) :
  Forall (λ i, i < length (zip4 a b c d)) idx →
  length (select idx a) = length idx ∧ length (select idx b) = length idx
  ∧ length (select idx c) = length idx ∧ length (select idx d) = length idx.
Proof.
  intros Hidx. destruct (select_zip4 a b c d idx Hidx) as (E1 & E2 & E3 & E4).
  simpl in E1, E2, E3, E4.
  rewrite <- E1, <- E2, <- E3, <- E4, !length_fmap.
  repeat split; by apply select_length.
Qed.

Lemma dom_columns (rows : list row) :
  dom (columns rows) = {["documents"; "distances"; "metadatas"; "ids"]}.
Proof.
  unfold columns. rewrite !dom_insert_L, dom_empty_L. set_solver.
Qed.

Section Retrieval.
Context `{B : Backend}.
Implicit Types (w : World) (self : ChromaDB).

(** C2. Whenever [get_relevant_docs] returns, the result has exactly the
    keys documents, distances, metadatas and ids; each holds a list of one
    list; the four inner lists have one length, and they are the first-batch
    columns the backend answered, all four taken at the same increasing
    positions [kept]. It returns whenever the backend answers a query result
    of one batch. *)
Theorem get_relevant_docs_result_shape self (question : string)
    (k : option Z) w :
  let n := k_or k (_max_samples self) in
  let answer := collection_query question n query_include (docs_collection w) in
  (∀ r, (get_relevant_docs self question k w).1 = Ok r →
     dom r = {["documents"; "distances"; "metadatas"; "ids"]}
     ∧ ∃ (raw : QueryResult) (a b c d : list pyval) (kept : list nat),
         answer.1 = Ok raw
         ∧ first_batch raw "documents" = Ok a
         ∧ first_batch raw "distances" = Ok b
         ∧ first_batch raw "metadatas" = Ok c
         ∧ first_batch raw "ids" = Ok d
         ∧ StronglySorted lt kept
         ∧ r !! "documents" = Some [select kept a]
         ∧ r !! "distances" = Some [select kept b]
         ∧ r !! "metadatas" = Some [select kept c]
         ∧ r !! "ids" = Some [select kept d]
         ∧ length (select kept a) = length kept
         ∧ length (select kept b) = length kept
         ∧ length (select kept c) = length kept
         ∧ length (select kept d) = length kept)
  ∧ (∀ docs dists metas ids,
       answer.1 = Ok (query_result docs dists metas ids) →
       ∃ r, (get_relevant_docs self question k w).1 = Ok r).
Proof.
  intros n answer. rewrite get_relevant_docs_unfold. fold n answer. simpl.
  split.
  - intros r Hr. destruct (answer.1) as [raw|e]; [|done]. simpl in Hr.
    apply filter_docs_Ok in Hr as (a & b & c & d & Ha & Hb & Hc & Hd & _ & ->).
    split; [apply dom_columns|].
    set (kept := positions_from (below (_similarity_threshold self)) 0
                   (zip4 a b c d)).
    exists raw, a, b, c, d, kept.
    repeat (split; [done|]). split; [apply positions_from_sorted|].
    rewrite columns_filter. fold kept. repeat (split; [done|]).
    apply select_zip4_length.
    eapply Forall_impl; [apply positions_from_bound|].
    intros j [_ Hj]. exact Hj.
  - intros docs dists metas ids ->. simpl.
    destruct (filter_retains_positions docs dists metas ids
                (_similarity_threshold self)) as [r ->].
    by exists r.
Qed.

End Retrieval.

Lemma get_relevant_docs_result_shape_witness :
  ∃ r, (get_relevant_docs Fixture.store "q" None
          (Mock.world Fixture.loaded)).1 = Ok r
       ∧ dom r = {["documents"; "distances"; "metadatas"; "ids"]}.
Proof.
  destruct (get_relevant_docs_result_shape Fixture.store "q" None
              (Mock.world Fixture.loaded)) as [Hshape Hreturns].
  destruct (Hreturns ["a"; "c"; "b"] [0.3; 0.9; 1.6]%float [∅; ∅; ∅]
              ["1"; "3"; "2"]) as [r Hr]; [reflexivity|].
  exists r. split; [exact Hr|]. exact (proj1 (Hshape r Hr)).
Defined.

Lemma columns_documents (rows : list row) :
  columns rows !! "documents" = Some [rows.*1.*1.*1].
Proof. done. Qed.

Lemma filter_below_nil docs dists metas ids (t : float) :
  Forall (λ d, PrimFloat.ltb d t = false) dists →
  filter (below t)
    (zip4 (PStr <$> docs) (PFloat <$> dists) (PDict <$> metas) (PStr <$> ids))
  = [].
Proof.
  intros Hall. apply elem_of_nil_inv. intros data.
  rewrite list_elem_of_filter, list_elem_of_lookup.
  intros [Hbelow [i Hi]].
  apply zip4_typed_lookup in Hi as (doc & d & meta & id & _ & Hd & _ & _ & ->).
  rewrite Forall_lookup in Hall. specialize (Hall i d Hd).
  unfold below in Hbelow. simpl in Hbelow. by rewrite Hall in Hbelow.
Qed.

Section Projection.
Context `{B : Backend}.
Implicit Types (w : World) (self : ChromaDB).

(** C7. [get_relevant_docs_documents] returns the one list under the key
    documents of what [get_relevant_docs] returns for the same arguments,
    leaves the world as [get_relevant_docs] leaves it, and raises what
    [get_relevant_docs] raises. When the backend answers no candidate, or
    no candidate is below the threshold, it returns the empty list. *)
Theorem get_relevant_docs_documents_is_projection self (question : string)
    (k : option Z) w :
  let n := k_or k (_max_samples self) in
  let answer := collection_query question n query_include (docs_collection w) in
  (∀ r w', get_relevant_docs self question k w = (Ok r, w') →
     ∃ docs, r !! "documents" = Some [docs]
       ∧ get_relevant_docs_documents self question k w = (Ok docs, w'))
  ∧ (∀ e w', get_relevant_docs self question k w = (Raise e, w') →
       get_relevant_docs_documents self question k w = (Raise e, w'))
  ∧ (answer.1 = Ok (query_result [] [] [] []) →
       (get_relevant_docs_documents self question k w).1 = Ok [])
  ∧ (∀ docs dists metas ids,
       answer.1 = Ok (query_result docs dists metas ids) →
       Forall (λ d, PrimFloat.ltb d (_similarity_threshold self) = false)
              dists →
       (get_relevant_docs_documents self question k w).1 = Ok []).
Proof.
  intros n answer.
  assert (∀ docs dists metas ids,
       answer.1 = Ok (query_result docs dists metas ids) →
       Forall (λ d, PrimFloat.ltb d (_similarity_threshold self) = false)
              dists →
       (get_relevant_docs_documents self question k w).1 = Ok []) as Hnone.
  { intros docs dists metas ids Hanswer Hall.
    rewrite get_relevant_docs_documents_unfold, get_relevant_docs_unfold.
    fold n answer. rewrite Hanswer. simpl.
    destruct (filter_retains_positions docs dists metas ids
                (_similarity_threshold self)) as [r Hr].
    rewrite Hr. simpl.
    apply filter_docs_Ok in Hr as (a & b & c & d & Ha & Hb & Hc & Hd & _ & ->).
    destruct (first_batch_query_result docs dists metas ids)
      as (Ha' & Hb' & Hc' & Hd').
    rewrite Ha' in Ha. rewrite Hb' in Hb. rewrite Hc' in Hc. rewrite Hd' in Hd.
    injection Ha as <-. injection Hb as <-. injection Hc as <-.
    injection Hd as <-.
    by rewrite (filter_below_nil _ _ _ _ _ Hall). }
  split; [|split; [|split]].
  - intros r w' Hget. rewrite get_relevant_docs_documents_unfold, Hget.
    rewrite get_relevant_docs_unfold in Hget. fold n answer in Hget.
    injection Hget as Hr _. destruct (answer.1) as [raw|e]; [|done].
    simpl in Hr.
    apply filter_docs_Ok in Hr as (a & b & c & d & _ & _ & _ & _ & _ & ->).
    eexists. split; [apply columns_documents|]. done.
  - intros e w' Hget.
    by rewrite get_relevant_docs_documents_unfold, Hget.
  - intros Hanswer. by apply (Hnone [] [] [] []).
  - exact Hnone.
Qed.

(** C8. With [k] omitted, [get_relevant_docs] asks the backend for
    [self._max_samples] nearest neighbours: what it returns is the filter
    applied to what the backend's query answers when asked for that many
    results, that query is the one call it makes, and the collection is left
    as that query leaves it. The constructor stores its [max_samples]
    argument there, so a store constructed with the argument at its default
    asks the backend for 3. *)
Theorem get_relevant_docs_default_k self (question : string) w :
  (let answer := collection_query question (_max_samples self)
                   ["metadatas"; "documents"; "distances"]
                   (docs_collection w) in
   get_relevant_docs self question None w
   = (match answer.1 with
      | Ok raw =>
          _filter_docs_based_on_distance raw (_similarity_threshold self)
      | Raise e => Raise e
      end,
      {| docs_collection := answer.2;
         calls := calls w ++ [CallQuery question (_max_samples self)
                                ["metadatas"; "documents"; "distances"]];
         uuid_values := uuid_values w;
         uuid_drawn := uuid_drawn w |}))
  ∧ (∀ settings args self' coll,
       ChromaDB_init settings args = Ok (self', coll) →
       _max_samples self' = max_samples args)
  ∧ (∀ settings args self' coll,
       ChromaDB_init settings args = Ok (self', coll) →
       max_samples args = max_samples default_args →
       let answer := collection_query question 3
                       ["metadatas"; "documents"; "distances"]
                       (docs_collection w) in
       get_relevant_docs self' question None w
       = (match answer.1 with
          | Ok raw =>
              _filter_docs_based_on_distance raw (_similarity_threshold self')
          | Raise e => Raise e
          end,
          {| docs_collection := answer.2;
             calls := calls w ++ [CallQuery question 3
                                    ["metadatas"; "documents"; "distances"]];
             uuid_values := uuid_values w;
             uuid_drawn := uuid_drawn w |})).
Proof.
  assert (∀ settings args self' coll,
       ChromaDB_init settings args = Ok (self', coll) →
       _max_samples self' = max_samples args) as Hstored.
  { intros settings args self' coll. unfold ChromaDB_init.
    destruct (resolve_client_settings _ _ _) as [cs|]; [|done]. simpl.
    destruct (chromadb_Client cs) as [client|]; [|done]. simpl.
    destruct (get_or_create_collection _ _ _) as [coll'|]; [|done]. simpl.
    by intros [= <- _]. }
  assert (∀ s : ChromaDB,
    let answer := collection_query question (_max_samples s)
                    ["metadatas"; "documents"; "distances"]
                    (docs_collection w) in
    get_relevant_docs s question None w
    = (match answer.1 with
       | Ok raw => _filter_docs_based_on_distance raw (_similarity_threshold s)
       | Raise e => Raise e
       end,
       {| docs_collection := answer.2;
          calls := calls w ++ [CallQuery question (_max_samples s)
                                 ["metadatas"; "documents"; "distances"]];
          uuid_values := uuid_values w;
          uuid_drawn := uuid_drawn w |})) as Hasked.
  { intros s answer. rewrite get_relevant_docs_unfold. by cbn [k_or]. }
  split; [apply Hasked|]. split; [exact Hstored|].
  intros settings args self' coll Hinit Hdefault. cbv zeta.
  rewrite (Hasked self'). cbv zeta.
  by rewrite (Hstored _ _ _ _ Hinit), Hdefault.
Qed.

End Projection.

Lemma get_relevant_docs_documents_is_projection_witness :
  (get_relevant_docs_documents Fixture.store "q" None
     (Mock.world Fixture.far)).1 = Ok [].
Proof.
  apply (get_relevant_docs_documents_is_projection Fixture.store "q" None
           (Mock.world Fixture.far))
    with (docs := ["b"; "d"]) (dists := [1.5; 2.0]%float)
         (metas := [∅; ∅]) (ids := ["2"; "4"]).
  - reflexivity.
  - repeat constructor.
Defined.

Lemma get_relevant_docs_default_k_witness :
  (get_relevant_docs Fixture.store "q" None (Mock.world Fixture.near)).1
  = Ok (query_result ["a"; "c"; "b"] [0.3; 0.9; 1.1]%float [∅; ∅; ∅]
                     ["1"; "3"; "2"]).
Proof.
  rewrite (proj2 (proj2 (get_relevant_docs_default_k Fixture.store "q"
                           (Mock.world Fixture.near)))
             Fixture.app_settings Fixture.args Fixture.store Mock.empty
             eq_refl eq_refl).
  reflexivity.
Defined.

Lemma mapM_cons `{MBind F, MRet F} {X Y} (f : X → F Y) (x : X) (l : list X) :
  mapM f (x :: l) = y ← f x; ys ← mapM f l; mret (y :: ys).
Proof. reflexivity. Qed.

Lemma mapM_record_ids (records : list (gmap string string))
    (found : list string) :
  mapM (λ record : gmap string string, record !! "id") records = Some found →
  mapM (λ record, dict_getitem record "id") records = Ok found.
Proof.
  revert found. induction records as [|record records IH]; intros found.
  { by intros [= <-]. }
  rewrite !mapM_cons.
  destruct (record !! "id") as [id|] eqn:Hid; [|done].
  destruct (mapM (λ record : gmap string string, record !! "id") records)
    as [ids|]; [|done].
  intros [= <-]. rewrite (IH ids eq_refl).
  unfold dict_getitem. by rewrite Hid.
Qed.

Section Deletion.
Context `{B : Backend}.
Implicit Types (w : World).

(** C9. Whatever [delete_docs] returns is [True]. It returns when the
    backend calls it makes return: the delete of the given ids, or, given
    only criteria, the lookup (each record having an id) and the delete of
    the ids found. *)
Theorem delete_docs_returns_True (ids : option (list string))
    (metadata_criteria : option Metadata) w :
  (∀ v, (delete_docs ids metadata_criteria w).1 = Ok v → v = true)
  ∧ (∀ ids', ids = Some ids' →
       (collection_delete (Some ids') (docs_collection w)).1 = Ok () →
       (delete_docs ids metadata_criteria w).1 = Ok true)
  ∧ (∀ where_ records coll found,
       ids = None → metadata_criteria = Some where_ →
       collection_get where_ (docs_collection w) = (Ok records, coll) →
       mapM (λ record : gmap string string, record !! "id") records
         = Some found →
       (collection_delete (Some found) coll).1 = Ok () →
       (delete_docs ids metadata_criteria w).1 = Ok true).
Proof.
  split; [|split].
  - intros v. destruct ids as [ids'|]; [|destruct metadata_criteria as [wh|]].
    + rewrite delete_docs_unfold_ids. simpl.
      destruct (collection_delete _ _).1; [|done]. by intros [= <-].
    + rewrite delete_docs_unfold_criteria. simpl.
      destruct (collection_get _ _).1 as [records|]; [|done].
      destruct (mapM _ records) as [found|]; [|done]. simpl.
      destruct (collection_delete _ _).1; [|done]. by intros [= <-].
    + rewrite delete_docs_unfold_nothing. simpl.
      destruct (collection_delete _ _).1; [|done]. by intros [= <-].
  - intros ids' -> Hdel. rewrite delete_docs_unfold_ids. simpl.
    by rewrite Hdel.
  - intros where_ records coll found -> -> Hget Hids Hdel.
    rewrite delete_docs_unfold_criteria. cbv zeta. rewrite Hget.
    cbn [fst snd]. rewrite (mapM_record_ids _ _ Hids). cbn [fst].
    by rewrite Hdel.
Qed.

(** C10. Given ids, [delete_docs] ignores the criteria: it hands exactly
    these ids to the backend's delete, on the collection as it stood (no
    lookup ran before), returns [True] when that delete returns and raises
    what it raises; that delete is the one call it makes, and the run is
    the same as without criteria. *)
Theorem delete_docs_ids_take_precedence (ids : list string)
    (metadata_criteria : option Metadata) w :
  (let answer := collection_delete (Some ids) (docs_collection w) in
   delete_docs (Some ids) metadata_criteria w
   = (match answer.1 with Ok _ => Ok true | Raise e => Raise e end,
      {| docs_collection := answer.2;
         calls := calls w ++ [CallDelete (Some ids)];
         uuid_values := uuid_values w;
         uuid_drawn := uuid_drawn w |}))
  ∧ delete_docs (Some ids) metadata_criteria w = delete_docs (Some ids) None w
  ∧ calls (delete_docs (Some ids) metadata_criteria w).2
    = calls w ++ [CallDelete (Some ids)].
Proof.
  rewrite !delete_docs_unfold_ids. cbv zeta. split; [|done].
  by destruct (collection_delete _ _).1.
Qed.

(** C5, as the code has it. Given neither ids nor criteria, [delete_docs]
    checks nothing: it makes one call on the collection, a delete with
    [ids=None], returns [True] when that call returns and raises what it
    raises; the collection is left as the backend leaves it. *)
Theorem delete_docs_without_target_calls_backend w :
  let answer := collection_delete None (docs_collection w) in
  delete_docs None None w
  = (match answer.1 with Ok _ => Ok true | Raise e => Raise e end,
     {| docs_collection := answer.2;
        calls := calls w ++ [CallDelete None];
        uuid_values := uuid_values w;
        uuid_drawn := uuid_drawn w |}).
Proof. intros answer. by rewrite delete_docs_unfold_nothing. Qed.

End Deletion.

Lemma delete_docs_returns_True_witness :
  (delete_docs (Some ["1"; "4"]) None (Mock.world Fixture.loaded)).1 = Ok true
  ∧ (delete_docs None (Some {["topic" := "x"]})
       (Mock.world Fixture.loaded)).1 = Ok true.
Proof.
  split.
  - apply (proj1 (proj2 (delete_docs_returns_True (Some ["1"; "4"]) None
                           (Mock.world Fixture.loaded))) ["1"; "4"]);
      reflexivity.
  - apply (proj2 (proj2 (delete_docs_returns_True None
                           (Some {["topic" := "x"]})
                           (Mock.world Fixture.loaded)))
             {["topic" := "x"]}
             [Mock.record_dict ("1", "a", ∅); Mock.record_dict ("2", "b", ∅)]
             Fixture.loaded ["1"; "2"]); reflexivity.
Defined.

Section Insertion.
Context `{B : Backend}.
Implicit Types (w : World).

Lemma generate_ids (docs : list string) w :
  mapM (λ _ : string, u ← uuid4; mret (u +:+ "-docs")) docs w
  = (Ok (generated_ids (length docs) w), drawn (length docs) w).
Proof.
  revert w. induction docs as [|doc docs IH]; intros w.
  { unfold drawn. destruct w. simpl. unfold mret, M_ret.
    by rewrite Nat.add_0_r. }
  rewrite mapM_cons. unfold mbind at 1, M_bind at 1.
  unfold mbind at 1, M_bind at 1, uuid4 at 1, mret at 1, M_ret at 1.
  unfold mbind at 1, M_bind at 1. rewrite IH.
  unfold mret, M_ret, generated_ids, drawn. simpl.
  rewrite Nat.add_0_r, <- fmap_S_seq, <- list_fmap_compose.
  f_equal; [f_equal; f_equal|f_equal; lia].
  apply list_fmap_ext. intros _ i _. simpl. by rewrite Nat.add_succ_r.
Qed.

Lemma add_docs_unfold (docs : list string) (ids : option (list string))
    (metadatas : option (list Metadata)) w :
  let ids' := default (generated_ids (length docs) w) ids in
  let w1 := if ids is None then drawn (length docs) w else w in
  let answer := collection_add docs metadatas ids' (docs_collection w) in
  add_docs docs ids metadatas w
  = (match answer.1 with Ok _ => Ok None | Raise e => Raise e end,
     after_call (CallAdd docs metadatas ids') answer.2 w1).
Proof.
  destruct ids as [ids|]; simpl.
  - rewrite add_docs_unfold_ids. simpl.
    by destruct (collection_add _ _ _ _).1.
  - unfold add_docs, mbind at 1, M_bind at 1. rewrite generate_ids.
    unfold mbind, M_bind, on_collection, mret, M_ret. simpl.
    by destruct (collection_add _ _ _ _) as [[[]|e] coll].
Qed.

End Insertion.

(** C4, as the code has it. [add_docs] compares no lengths: for any docs,
    ids (given, or generated one per document) and metadatas it makes one
    call on the collection, an add of the docs, metadatas and ids as they
    are; it raises only what that call raises, and the collection is left as
    the backend leaves it. *)
Theorem add_docs_forwards_unchecked `{B : Backend} (docs : list string)
    (ids : option (list string)) (metadatas : option (list Metadata))
    (w : World) :
  let ids' := default (generated_ids (length docs) w) ids in
  let answer := collection_add docs metadatas ids' (docs_collection w) in
  (add_docs docs ids metadatas w).1
  = match answer.1 with Ok _ => Ok None | Raise e => Raise e end
  ∧ calls (add_docs docs ids metadatas w).2
    = calls w ++ [CallAdd docs metadatas ids']
  ∧ docs_collection (add_docs docs ids metadatas w).2 = answer.2.
Proof. intros ids' answer. rewrite add_docs_unfold. by destruct ids. Qed.

(** C4 fails: three documents with two ids are handed to the backend, and
    with a backend that pairs them up the call returns and two records are
    stored. *)
Lemma add_docs_mismatched_lengths_reach_backend :
  (add_docs ["a"; "b"; "c"] (Some ["x"; "y"]) None
     (Mock.world Mock.empty)).1 = Ok None
  ∧ calls (add_docs ["a"; "b"; "c"] (Some ["x"; "y"]) None
             (Mock.world Mock.empty)).2
    = [CallAdd ["a"; "b"; "c"] None ["x"; "y"]]
  ∧ Mock.records
      (docs_collection (add_docs ["a"; "b"; "c"] (Some ["x"; "y"]) None
                          (Mock.world Mock.empty)).2)
    = [("x", "a", ∅); ("y", "b", ∅)].
Proof. repeat split; reflexivity. Qed.

(** C3 fails: [add_docs] never returns a list of ids. It returns [None] or
    raises; in particular with the id "x" given for the document "a" it
    returns [None] after handing "x" to the backend. *)
Theorem add_docs_returns_None :
  (∀ (B : Backend) docs ids metadatas (w : World),
     (add_docs docs ids metadatas w).1 = Ok None
     ∨ ∃ e, (add_docs docs ids metadatas w).1 = Raise e)
  ∧ (add_docs ["a"] (Some ["x"]) None (Mock.world Mock.empty)).1 = Ok None
  ∧ calls (add_docs ["a"] (Some ["x"]) None (Mock.world Mock.empty)).2
    = [CallAdd ["a"] None ["x"]].
Proof.
  split; [|split; reflexivity].
  intros B docs ids metadatas w. rewrite add_docs_unfold. simpl.
  destruct (collection_add _ _ _ _).1 as [|e]; [by left|right; by exists e].
Qed.

(** C5 fails: with neither ids nor criteria the call is not rejected. A
    delete with [ids=None] reaches the backend, and with a backend that
    takes it as no constraint both records are gone and [True] comes
    back. *)
Lemma delete_docs_without_target_not_rejected :
  (delete_docs None None (Mock.world Fixture.far)).1 = Ok true
  ∧ calls (delete_docs None None (Mock.world Fixture.far)).2
    = [CallDelete None]
  ∧ Mock.records
      (docs_collection (delete_docs None None (Mock.world Fixture.far)).2)
    = [].
Proof. repeat split; reflexivity. Qed.

(** ** The constructor *)

Section Construction.
Context `{B : Backend}.

(** (a) With client settings given, their directory is the path argument
    when that is a non-empty string, and stays what it was otherwise. *)
Lemma resolve_client_settings_given settings persist_path cs :
  resolve_client_settings settings persist_path (Some cs)
  = Ok (set_persist_directory cs
          (default (persist_directory cs) (str_truthy persist_path))).
Proof. reflexivity. Qed.

(** (b) Without client settings and with a non-empty path, the directory is
    the path, in fresh persistent settings. *)
Lemma resolve_client_settings_path settings persist_path p :
  str_truthy persist_path = Some p →
  resolve_client_settings settings persist_path None
  = Ok {| is_persistent := true; anonymized_telemetry := false;
          persist_directory := p |}.
Proof. intros Hp. unfold resolve_client_settings. by rewrite Hp. Qed.

(** (c) With neither, line 52 reads an attribute [Settings] does not have. *)
Lemma resolve_client_settings_default settings persist_path :
  str_truthy persist_path = None →
  resolve_client_settings settings persist_path None
  = Raise (AttributeError "chromadb_url").
Proof. intros Hp. unfold resolve_client_settings. by rewrite Hp. Qed.

(** Once the settings are resolved, the constructor fails only where the
    backend does, and the store records the resolved directory. *)
Lemma ChromaDB_init_resolved settings args cs client coll :
  resolve_client_settings settings (persist_path args) (client_settings args)
    = Ok cs →
  chromadb_Client cs = Ok client →
  get_or_create_collection client (collection_name args)
    (default DEFAULT_EMBEDDING_FUNCTION (embedding_function args)) = Ok coll →
  ∃ self, ChromaDB_init settings args = Ok (self, coll)
          ∧ _persist_directory self = persist_directory cs
          ∧ _client_settings self = cs.
Proof.
  intros Hcs Hclient Hcoll. unfold ChromaDB_init.
  rewrite Hcs. simpl. rewrite Hclient. simpl. rewrite Hcoll. simpl.
  by eexists.
Qed.

(** C6 fails at (c): constructed with neither client settings nor a path
    (the path omitted, or empty), the store raises AttributeError for
    [settings.chromadb_url] before any client is created, whatever the
    backend; so does the constructor called with no argument at all. *)
Theorem ChromaDB_init_default_location_raises (settings : Settings)
    (name : string) (ef : option EmbeddingFunction) (ms : Z) (thr : float) :
  ChromaDB_init settings
    {| collection_name := name; embedding_function := ef;
       persist_path := None; client_settings := None;
       max_samples := ms; similary_threshold := thr |}
  = Raise (AttributeError "chromadb_url")
  ∧ ChromaDB_init settings
      {| collection_name := name; embedding_function := ef;
         persist_path := Some EmptyString; client_settings := None;
         max_samples := ms; similary_threshold := thr |}
    = Raise (AttributeError "chromadb_url")
  ∧ ChromaDB_init settings default_args = Raise (AttributeError "chromadb_url").
Proof. done. Qed.

End Construction.

(** * Further properties of the filter *)

(** ** Order of floats *)

Lemma SFltb_leb_trans (a b c : spec_float) :
  SFltb a b = true → SFleb b c = true → SFltb a c = true.
Proof.
  unfold SFltb, SFleb, SFcompare.
  destruct a as [[|]|[|]| |[|] ma ea], b as [[|]|[|]| |[|] mb eb],
           c as [[|]|[|]| |[|] mc ec]; simpl; try congruence.
  all: change (Pos.compare_cont Eq) with Pos.compare.
  all: destruct (Z.compare_spec ea eb), (Z.compare_spec eb ec),
                (Z.compare_spec ea ec); simpl; try congruence; try lia.
  all: destruct (Pos.compare_spec ma mb), (Pos.compare_spec mb mc),
                (Pos.compare_spec ma mc); simpl; try congruence; try lia.
Qed.

Lemma float_ltb_leb_trans (x y z : float) :
  PrimFloat.ltb x y = true → PrimFloat.leb y z = true →
  PrimFloat.ltb x z = true.
Proof. rewrite !ltb_spec, leb_spec. apply SFltb_leb_trans. Qed.

(** ** Rows and their columns *)

Lemma zip4_columns (rows : list row) :
  zip4 (rows.*1.*1.*1) (rows.*1.*1.*2) (rows.*1.*2) (rows.*2) = rows.
Proof.
  induction rows as [|[[[doc dist] meta] id] rows IH]; [done|].
  rewrite !fmap_cons. cbn [zip4 fst snd]. by rewrite IH.
Qed.

Lemma first_batch_columns (rows : list row) :
  first_batch (columns rows) "documents" = Ok (rows.*1.*1.*1)
  ∧ first_batch (columns rows) "distances" = Ok (rows.*1.*1.*2)
  ∧ first_batch (columns rows) "metadatas" = Ok (rows.*1.*2)
  ∧ first_batch (columns rows) "ids" = Ok (rows.*2).
Proof. done. Qed.

Lemma zip4_take (n : nat) (a b c d : list pyval) :
  zip4 (take n a) (take n b) (take n c) (take n d) = take n (zip4 a b c d).
Proof.
  revert a b c d.
  induction n as [|n IH]; intros [|x a] [|y b] [|z c] [|u d]; simpl;
    try done.
  by rewrite IH.
Qed.

Lemma zip4_length (a b c d : list pyval) :
  length (zip4 a b c d)
  = Nat.min (Nat.min (Nat.min (length a) (length b)) (length c)) (length d).
Proof.
  revert b c d.
  induction a as [|x a IH]; intros [|y b] [|z c] [|u d]; simpl; try done;
    try lia.
  rewrite IH. lia.
Qed.

(** The columns of a zip are the arguments, cut to the shortest. *)
Lemma zip4_columns_take (a b c d : list pyval) :
  let n := length (zip4 a b c d) in
  (zip4 a b c d).*1.*1.*1 = take n a ∧ (zip4 a b c d).*1.*1.*2 = take n b
  ∧ (zip4 a b c d).*1.*2 = take n c ∧ (zip4 a b c d).*2 = take n d.
Proof.
  revert b c d.
  induction a as [|x a IH]; intros [|y b] [|z c] [|u d]; try done.
  destruct (IH b c d) as (E1 & E2 & E3 & E4). cbv zeta in *.
  cbn [zip4 length take]. rewrite !fmap_cons. cbn [fst snd].
  by rewrite E1, E2, E3, E4.
Qed.

Lemma filter_all {A} (q : A → bool) (l : list A) :
  Forall (λ x, q x = true) l → filter q l = l.
Proof.
  induction 1 as [|x l Hx _ IH]; [done|].
  by rewrite filter_cons_bool, Hx, IH.
Qed.

Lemma filter_filter_bool {A} (q1 q2 : A → bool) (l : list A) :
  (∀ x, q1 x = true → q2 x = true) →
  filter q1 (filter q2 l) = filter q1 l.
Proof.
  intros Himp. induction l as [|x l IH]; [done|].
  rewrite !filter_cons_bool. destruct (q2 x) eqn:H2.
  - by rewrite filter_cons_bool, IH.
  - rewrite IH. destruct (q1 x) eqn:H1; [|done].
    apply Himp in H1. congruence.
Qed.

Lemma Forall_filter_bool {A} (P : A → Prop) (q : A → bool) (l : list A) :
  Forall P l → Forall P (filter q l).
Proof.
  intros Hall. apply Forall_forall. intros x [_ Hx]%list_elem_of_filter.
  by eapply Forall_forall in Hall.
Qed.

Lemma below_float_distance (t : float) (data : row) :
  below t data = true → float_distance data.
Proof.
  unfold below, float_distance. destruct (data.1.1.2) as [| |d|]; try done.
  by exists d.
Qed.

Lemma StronglySorted_sublist {A} (R : relation A) (l1 l2 : list A) :
  l1 `sublist_of` l2 → StronglySorted R l2 → StronglySorted R l1.
Proof.
  induction 1 as [|x l1 l2 Hsub IH|x l1 l2 Hsub IH]; intros Hsorted.
  - constructor.
  - apply StronglySorted_inv in Hsorted as [Hl2 Hx].
    constructor; [by apply IH|].
    apply Forall_forall. intros y Hy.
    eapply Forall_forall in Hx; [done|]. by eapply elem_of_sublist.
  - apply StronglySorted_inv in Hsorted as [Hl2 _]. by apply IH.
Qed.

(** Filtering the rows of a dict the comprehension built. *)
Lemma filter_docs_columns (rows : list row) (t : float) :
  Forall float_distance rows →
  _filter_docs_based_on_distance (columns rows) t
  = Ok (columns (filter (below t) rows)).
Proof.
  intros Hall. apply filter_docs_Ok.
  exists (rows.*1.*1.*1), (rows.*1.*1.*2), (rows.*1.*2), (rows.*2).
  destruct (first_batch_columns rows) as (-> & -> & -> & ->).
  rewrite zip4_columns. done.
Qed.

(** X1. Filtering is idempotent: what the function returned, given back to
    it with the same threshold, is returned unchanged. *)
Theorem filter_docs_idempotent (raw r : QueryResult) (t : float) :
  _filter_docs_based_on_distance raw t = Ok r →
  _filter_docs_based_on_distance r t = Ok r.
Proof.
  intros (a & b & c & d & _ & _ & _ & _ & Hall & ->)%filter_docs_Ok.
  rewrite filter_docs_columns.
  - rewrite filter_all; [done|].
    apply Forall_forall. intros data [Hb _]%list_elem_of_filter.
    by apply Is_true_true.
  - by apply Forall_filter_bool.
Qed.

Lemma filter_docs_idempotent_witness :
  _filter_docs_based_on_distance
    (query_result ["a"; "c"] [0.3; 0.9]%float [∅; ∅] ["1"; "3"]) 1.5%float
  = Ok (query_result ["a"; "c"] [0.3; 0.9]%float [∅; ∅] ["1"; "3"]).
Proof.
  apply (filter_docs_idempotent
           (query_result ["a"; "b"; "c"; "d"] [0.3; 1.6; 0.9; 2.0]%float
                         [∅; ∅; ∅; ∅] ["1"; "2"; "3"; "4"])).
  reflexivity.
Defined.

(** X2. Each column the function returns is a sublist of the first-batch
    column it was given: nothing is added and nothing reordered. So an order
    the given distances have (ascending, say) is an order of the returned
    ones. *)
Theorem filter_docs_sublist (raw r : QueryResult) (t : float) :
  _filter_docs_based_on_distance raw t = Ok r →
  ∃ a b c d a' b' c' d',
    first_batch raw "documents" = Ok a ∧ first_batch raw "distances" = Ok b
    ∧ first_batch raw "metadatas" = Ok c ∧ first_batch raw "ids" = Ok d
    ∧ r !! "documents" = Some [a'] ∧ r !! "distances" = Some [b']
    ∧ r !! "metadatas" = Some [c'] ∧ r !! "ids" = Some [d']
    ∧ a' `sublist_of` a ∧ b' `sublist_of` b
    ∧ c' `sublist_of` c ∧ d' `sublist_of` d
    ∧ ∀ R : relation pyval, StronglySorted R b → StronglySorted R b'.
Proof.
  intros (a & b & c & d & Ha & Hb & Hc & Hd & _ & ->)%filter_docs_Ok.
  set (rows := zip4 a b c d). set (rows' := filter (below t) rows).
  assert (rows' `sublist_of` rows) as Hsub by apply sublist_filter.
  destruct (zip4_columns_take a b c d) as (E1 & E2 & E3 & E4).
  fold rows in E1, E2, E3, E4.
  assert (rows'.*1.*1.*1 `sublist_of` a) as Ha'.
  { trans (rows.*1.*1.*1); [by do 3 apply fmap_sublist|].
    rewrite E1. apply sublist_take. }
  assert (rows'.*1.*1.*2 `sublist_of` b) as Hb'.
  { trans (rows.*1.*1.*2); [by do 3 apply fmap_sublist|].
    rewrite E2. apply sublist_take. }
  assert (rows'.*1.*2 `sublist_of` c) as Hc'.
  { trans (rows.*1.*2); [by do 2 apply fmap_sublist|].
    rewrite E3. apply sublist_take. }
  assert (rows'.*2 `sublist_of` d) as Hd'.
  { trans (rows.*2); [by apply fmap_sublist|].
    rewrite E4. apply sublist_take. }
  exists a, b, c, d, (rows'.*1.*1.*1), (rows'.*1.*1.*2), (rows'.*1.*2),
         (rows'.*2).
  repeat (split; [done|]).
  intros R. by apply StronglySorted_sublist.
Qed.

Lemma filter_docs_sublist_witness :
  ∃ b', query_result ["a"; "c"] [0.3; 0.9]%float [∅; ∅] ["1"; "3"]
          !! "distances" = Some [b']
        ∧ b' `sublist_of` (PFloat <$> [0.3; 1.6; 0.9; 2.0]%float).
Proof.
  destruct (filter_docs_sublist
              (query_result ["a"; "b"; "c"; "d"] [0.3; 1.6; 0.9; 2.0]%float
                            [∅; ∅; ∅; ∅] ["1"; "2"; "3"; "4"])
              (query_result ["a"; "c"] [0.3; 0.9]%float [∅; ∅] ["1"; "3"])
              1.5%float eq_refl)
    as (a & b & c & d & a' & b' & c' & d' & _ & Hb & _ & _ & _ & Hb' & _ & _
        & _ & Hsub & _).
  exists b'. split; [exact Hb'|]. by injection Hb as <-.
Defined.

(** X3. Columns of different lengths are no error: the function reads each
    column up to the length of the shortest and ignores the rest. *)
Theorem filter_docs_shortest_column (docs : list string) (dists : list float)
    (metas : list Metadata) (ids : list string) (t : float) :
  let n := Nat.min (Nat.min (Nat.min (length docs) (length dists))
                      (length metas)) (length ids) in
  _filter_docs_based_on_distance (query_result docs dists metas ids) t
  = _filter_docs_based_on_distance
      (query_result (take n docs) (take n dists) (take n metas) (take n ids)) t.
Proof.
  intros n. rewrite !filter_docs_unfold.
  destruct (first_batch_query_result docs dists metas ids)
    as (-> & -> & -> & ->).
  destruct (first_batch_query_result (take n docs) (take n dists)
              (take n metas) (take n ids)) as (-> & -> & -> & ->).
  simpl. rewrite !fmap_take, zip4_take, take_ge; [done|].
  rewrite zip4_length, !length_fmap. done.
Qed.

Lemma first_batch_Raise (raw : QueryResult) (key : string) (e : exn) :
  first_batch raw key = Raise e ↔
  (raw !! key = None ∧ e = KeyError key)
  ∨ (raw !! key = Some [] ∧ e = IndexError).
Proof.
  unfold first_batch, dict_getitem, list_getitem.
  destruct (raw !! key) as [[|col batch]|]; simpl; split;
    try (intros [= <-]; by auto); intros [[? ?]|[? ?]]; by simplify_eq.
Qed.

Lemma filterM_row_below_Raise (t : float) (rows : list row) (e : exn) :
  filterM (row_below t) rows = Raise e →
  e = TypeError ∧ ∃ data, data ∈ rows ∧ ¬ float_distance data.
Proof.
  induction rows as [|[[[doc dist] meta] id] rows IH]; [done|].
  cbn [filterM].
  destruct dist as [| |d|];
    try (intros [= <-]; split; [done|]; eexists; split; [by left|];
         by intros [d' ?]).
  simpl. destruct (filterM (row_below t) rows) as [ys|e'] eqn:Hf; [done|].
  simpl. intros [= <-]. destruct (IH eq_refl) as [-> (data & Hin & Hno)].
  split; [done|]. exists data. split; [by right|done].
Qed.

Lemma field_first_batch_Raise
    (raw : gmap string (option (list (list pyval)))) (key : string)
    (e : exn) :
  field_first_batch raw key = Raise e ↔
  (raw !! key = None ∧ e = KeyError key)
  ∨ (raw !! key = Some None ∧ e = TypeError)
  ∨ (raw !! key = Some (Some []) ∧ e = IndexError).
Proof.
  unfold field_first_batch, dict_getitem, list_getitem.
  destruct (raw !! key) as [[[|col batch]|]|]; simpl; split;
    try (intros [= <-]; by auto);
    intros [[? ?]|[[? ?]|[? ?]]]; by simplify_eq.
Qed.

Lemma field_first_batch_Some (raw : QueryResult) (key : string) :
  field_first_batch (Some <$> raw) key = first_batch raw key.
Proof.
  unfold field_first_batch, first_batch, dict_getitem.
  rewrite lookup_fmap. by destruct (raw !! key).
Qed.

(** On a result all of whose fields are lists, the function on optional
    fields is the function of the class. *)
Lemma filter_docs_optional_all_lists (raw : QueryResult) (t : float) :
  _filter_docs_based_on_distance_optional (Some <$> raw) t
  = _filter_docs_based_on_distance raw t.
Proof.
  rewrite filter_docs_unfold. unfold _filter_docs_based_on_distance_optional.
  rewrite !field_first_batch_Some.
  destruct (first_batch raw "documents") as [a|]; [|done].
  destruct (first_batch raw "distances") as [b|]; [|done].
  destruct (first_batch raw "metadatas") as [c|]; [|done].
  destruct (first_batch raw "ids") as [d|]; [|done]. simpl.
  destruct (filterM _ _) as [rows|]; [|done]. simpl.
  apply build_columns_ok.
Qed.

(** X4. On a query result whose fields may be absent or [None], the
    function raises only these ways: KeyError for a field that is absent,
    TypeError for a field that is [None], IndexError for a field with no
    batch at all, TypeError for a zipped candidate whose distance is not a
    float. *)
Theorem filter_docs_Raise (raw : gmap string (option (list (list pyval))))
    (t : float) (e : exn) :
  _filter_docs_based_on_distance_optional raw t = Raise e →
  (∃ key, key ∈ result_keys ∧ raw !! key = None ∧ e = KeyError key)
  ∨ (∃ key, key ∈ result_keys ∧ raw !! key = Some None ∧ e = TypeError)
  ∨ (∃ key, key ∈ result_keys ∧ raw !! key = Some (Some [])
            ∧ e = IndexError)
  ∨ (e = TypeError
     ∧ ∃ a b c d data,
         field_first_batch raw "documents" = Ok a
         ∧ field_first_batch raw "distances" = Ok b
         ∧ field_first_batch raw "metadatas" = Ok c
         ∧ field_first_batch raw "ids" = Ok d
         ∧ data ∈ zip4 a b c d ∧ ¬ float_distance data).
Proof.
  assert (∀ key, key ∈ result_keys → field_first_batch raw key = Raise e →
    (∃ key, key ∈ result_keys ∧ raw !! key = None ∧ e = KeyError key)
    ∨ (∃ key, key ∈ result_keys ∧ raw !! key = Some None ∧ e = TypeError)
    ∨ (∃ key, key ∈ result_keys ∧ raw !! key = Some (Some [])
              ∧ e = IndexError)
    ∨ (e = TypeError
       ∧ ∃ a b c d data,
           field_first_batch raw "documents" = Ok a
           ∧ field_first_batch raw "distances" = Ok b
           ∧ field_first_batch raw "metadatas" = Ok c
           ∧ field_first_batch raw "ids" = Ok d
           ∧ data ∈ zip4 a b c d ∧ ¬ float_distance data)) as Hkey.
  { intros key Hkey [[? ?]|[[? ?]|[? ?]]]%field_first_batch_Raise.
    - left. by exists key.
    - right. left. by exists key.
    - right. right. left. by exists key. }
  unfold _filter_docs_based_on_distance_optional.
  destruct (field_first_batch raw "documents") as [a|e0] eqn:Ha.
  2: { intros [= <-]. apply (Hkey "documents"); [set_solver|done]. }
  destruct (field_first_batch raw "distances") as [b|e0] eqn:Hb.
  2: { intros [= <-]. apply (Hkey "distances"); [set_solver|done]. }
  destruct (field_first_batch raw "metadatas") as [c|e0] eqn:Hc.
  2: { intros [= <-]. apply (Hkey "metadatas"); [set_solver|done]. }
  destruct (field_first_batch raw "ids") as [d|e0] eqn:Hd.
  2: { intros [= <-]. apply (Hkey "ids"); [set_solver|done]. }
  cbn [mbind res_bind]. destruct (filterM _ _) as [rows|e0] eqn:Hf.
  { cbn [mbind res_bind]. by rewrite build_columns_ok. }
  cbn [mbind res_bind]. intros [= <-].
  apply filterM_row_below_Raise in Hf as [-> (data & Hin & Hno)].
  do 3 right. split; [done|]. by exists a, b, c, d, data.
Qed.

Lemma filter_docs_Raise_witness :
  ∃ key, key ∈ result_keys
    ∧ (<["metadatas" := None]>
         (Some <$> query_result ["a"] [0.3]%float [∅] ["1"])) !! key
      = Some None.
Proof.
  assert (_filter_docs_based_on_distance_optional
            (<["metadatas" := None]>
               (Some <$> query_result ["a"] [0.3]%float [∅] ["1"]))
            1.5%float = Raise TypeError) as Hraise by reflexivity.
  destruct (filter_docs_Raise _ _ _ Hraise)
    as [(key & _ & _ & [=])|[H|[(key & _ & _ & [=])|[_ H]]]].
  - destruct H as (key & Hkey & Hnone & _). by exists key.
  - destruct H as (a & b & c & d & data & _ & _ & Hc & _).
    vm_compute in Hc. discriminate Hc.
Defined.

(** X5. The fields are read in the order documents, distances, metadatas,
    ids, before any distance is compared: the exception is that of the
    first field that is missing or has no batch, whatever the later fields
    and the candidates are. *)
Theorem filter_docs_first_bad_field (raw : QueryResult) (t : float)
    (before after : list string) (key : string) (e : exn) :
  result_keys = before ++ key :: after →
  Forall (λ k, ∃ col, first_batch raw k = Ok col) before →
  first_batch raw key = Raise e →
  _filter_docs_based_on_distance raw t = Raise e.
Proof.
  intros Hkeys Hbefore Hkey. rewrite filter_docs_unfold.
  unfold result_keys in Hkeys.
  destruct before as [|k0 [|k1 [|k2 [|k3 before]]]]; simplify_eq/=.
  - by rewrite Hkey.
  - apply Forall_cons in Hbefore as [[a ->] _]. simpl. by rewrite Hkey.
  - apply Forall_cons in Hbefore as [[a ->] Hbefore].
    apply Forall_cons in Hbefore as [[b ->] _]. simpl. by rewrite Hkey.
  - apply Forall_cons in Hbefore as [[a ->] Hbefore].
    apply Forall_cons in Hbefore as [[b ->] Hbefore].
    apply Forall_cons in Hbefore as [[c ->] _]. simpl. by rewrite Hkey.
  - by destruct before.
Qed.

Lemma filter_docs_first_bad_field_witness :
  _filter_docs_based_on_distance
    (<["distances" := []]>
       (delete "ids" (query_result ["a"] [0.3]%float [∅] ["1"]))) 1.5%float
  = Raise IndexError.
Proof.
  apply (filter_docs_first_bad_field _ _ ["documents"] ["metadatas"; "ids"]
           "distances").
  - reflexivity.
  - repeat constructor. by eexists.
  - reflexivity.
Defined.

(** X6. Filtering twice, with a threshold [t2] and then with a threshold
    [t1 <= t2], is filtering once with [t1]: a tighter threshold only
    removes candidates, and a looser one before it changes nothing. *)
Theorem filter_docs_tighter_threshold (raw r2 : QueryResult) (t1 t2 : float) :
  PrimFloat.leb t1 t2 = true →
  _filter_docs_based_on_distance raw t2 = Ok r2 →
  _filter_docs_based_on_distance r2 t1
  = _filter_docs_based_on_distance raw t1.
Proof.
  intros Hle (a & b & c & d & Ha & Hb & Hc & Hd & Hall & ->)%filter_docs_Ok.
  rewrite filter_docs_columns by by apply Forall_filter_bool.
  symmetry. apply filter_docs_Ok. exists a, b, c, d.
  repeat (split; [done|]). f_equal. apply filter_filter_bool.
  intros [[[doc dist] meta] id]. unfold below. simpl.
  destruct dist as [| |x|]; try done.
  intros Hx. by apply (float_ltb_leb_trans x t1 t2).
Qed.

Lemma filter_docs_tighter_threshold_witness :
  _filter_docs_based_on_distance
    (query_result ["a"; "c"] [0.3; 0.9]%float [∅; ∅] ["1"; "3"]) 0.5%float
  = _filter_docs_based_on_distance
      (query_result ["a"; "b"; "c"; "d"] [0.3; 1.6; 0.9; 2.0]%float
                    [∅; ∅; ∅; ∅] ["1"; "2"; "3"; "4"]) 0.5%float.
Proof.
  apply (filter_docs_tighter_threshold _ _ 0.5%float 1.5%float); reflexivity.
Defined.

(** * Further properties of the methods *)

(** The documents of the typed rows that pass, as pairs of document and
    distance. *)
Lemma filter_typed_documents docs dists metas ids (t : float) :
  length docs = length dists →
  length metas = length dists →
  length ids = length dists →
  (filter (below t)
     (zip4 (PStr <$> docs) (PFloat <$> dists) (PDict <$> metas)
           (PStr <$> ids))).*1.*1.*1
  = PStr <$> (filter (λ p : string * float, PrimFloat.ltb p.2 t)
                (zip docs dists)).*1.
Proof.
  revert dists metas ids.
  induction docs as [|doc docs IH]; intros [|d dists] [|meta metas] [|id ids];
    try done.
  intros [= Hdocs] [= Hmetas] [= Hids].
  cbn [fmap list_fmap zip4 zip zip_with]. rewrite !filter_cons_bool.
  change (below t (PStr doc, PFloat d, PDict meta, PStr id))
    with (PrimFloat.ltb d t).
  cbn [snd]. specialize (IH dists metas ids Hdocs Hmetas Hids).
  destruct (PrimFloat.ltb d t); [|exact IH].
  rewrite !fmap_cons. cbn [fst]. f_equal. exact IH.
Qed.

Section MoreRetrieval.
Context `{B : Backend}.
Implicit Types (w : World) (self : ChromaDB).

(** X7. [k = 0] is taken as omitted: the backend's query is asked for
    [self._max_samples] results, as in the run without [k]. Any other [k],
    a negative one too, is what the backend's query is asked for. In both
    cases the result is the filter applied to what that query answers, the
    query is the one call made, and the collection is left as it leaves
    it. *)
Theorem get_relevant_docs_k_zero self (question : string) w :
  (let answer := collection_query question (_max_samples self)
                   ["metadatas"; "documents"; "distances"]
                   (docs_collection w) in
   get_relevant_docs self question (Some 0%Z) w
   = (match answer.1 with
      | Ok raw =>
          _filter_docs_based_on_distance raw (_similarity_threshold self)
      | Raise e => Raise e
      end,
      {| docs_collection := answer.2;
         calls := calls w ++ [CallQuery question (_max_samples self)
                                ["metadatas"; "documents"; "distances"]];
         uuid_values := uuid_values w;
         uuid_drawn := uuid_drawn w |}))
  ∧ get_relevant_docs self question (Some 0%Z) w
    = get_relevant_docs self question None w
  ∧ ∀ k, k ≠ 0%Z →
      let answer := collection_query question k
                      ["metadatas"; "documents"; "distances"]
                      (docs_collection w) in
      get_relevant_docs self question (Some k) w
      = (match answer.1 with
         | Ok raw =>
             _filter_docs_based_on_distance raw (_similarity_threshold self)
         | Raise e => Raise e
         end,
         {| docs_collection := answer.2;
            calls := calls w ++ [CallQuery question k
                                   ["metadatas"; "documents"; "distances"]];
            uuid_values := uuid_values w;
            uuid_drawn := uuid_drawn w |}).
Proof.
  split; [|split].
  - by rewrite get_relevant_docs_unfold.
  - by rewrite !get_relevant_docs_unfold.
  - intros k Hk. cbv zeta. rewrite get_relevant_docs_unfold. cbn [k_or].
    by destruct (Z.eqb_spec k 0).
Qed.

(** X8. End to end: when the backend answers one batch of aligned columns,
    [get_relevant_docs_documents] returns the documents whose distance is
    below the store's threshold, in the backend's order, and nothing else. *)
Theorem get_relevant_docs_documents_below_threshold self (question : string)
    (k : option Z) w (docs : list string) (dists : list float)
    (metas : list Metadata) (ids : list string) :
  length docs = length dists →
  length metas = length dists →
  length ids = length dists →
  (collection_query question (k_or k (_max_samples self)) query_include
     (docs_collection w)).1 = Ok (query_result docs dists metas ids) →
  (get_relevant_docs_documents self question k w).1
  = Ok (PStr <$>
          (filter (λ p : string * float,
                     PrimFloat.ltb p.2 (_similarity_threshold self))
             (zip docs dists)).*1).
Proof.
  intros Hdocs Hmetas Hids Hanswer.
  rewrite get_relevant_docs_documents_unfold, get_relevant_docs_unfold.
  cbv zeta. rewrite Hanswer. cbn [fst snd mbind res_bind].
  destruct (filter_retains_positions docs dists metas ids
              (_similarity_threshold self)) as [r Hr].
  rewrite Hr. cbn [mbind res_bind].
  apply filter_docs_Ok in Hr as (a & b & c & d & Ha & Hb & Hc & Hd & _ & ->).
  destruct (first_batch_query_result docs dists metas ids)
    as (Ha' & Hb' & Hc' & Hd').
  rewrite Ha' in Ha. rewrite Hb' in Hb. rewrite Hc' in Hc. rewrite Hd' in Hd.
  injection Ha as <-. injection Hb as <-. injection Hc as <-.
  injection Hd as <-.
  unfold dict_getitem. rewrite columns_documents. cbn [mbind res_bind].
  unfold list_getitem. cbn [lookup list_lookup].
  by rewrite filter_typed_documents.
Qed.

End MoreRetrieval.

Lemma get_relevant_docs_documents_below_threshold_witness :
  (get_relevant_docs_documents Fixture.store "q" None
     (Mock.world Fixture.loaded)).1
  = Ok (PStr <$>
          (filter (λ p : string * float, PrimFloat.ltb p.2 1.5)
             (zip ["a"; "c"; "b"] [0.3; 0.9; 1.6]%float)).*1).
Proof.
  apply (get_relevant_docs_documents_below_threshold Fixture.store "q" None
           (Mock.world Fixture.loaded) ["a"; "c"; "b"] [0.3; 0.9; 1.6]%float
           [∅; ∅; ∅] ["1"; "3"; "2"]); reflexivity.
Defined.

Lemma mapM_record_ids_missing (records : list (gmap string string))
    (record : gmap string string) :
  record ∈ records → record !! "id" = None →
  mapM (λ record, dict_getitem record "id") records = Raise (KeyError "id").
Proof.
  intros Hin Hnone. induction records as [|r records IH].
  { by apply elem_of_nil in Hin. }
  rewrite mapM_cons.
  destruct (r !! "id") as [id|] eqn:Hid.
  - apply elem_of_cons in Hin as [->|Hin]; [congruence|].
    rewrite (IH Hin). unfold dict_getitem. by rewrite Hid.
  - unfold dict_getitem. by rewrite Hid.
Qed.

Section MoreDeletion.
Context `{B : Backend}.
Implicit Types (w : World).

Section CriteriaAnyLookup.
Variable collection_get_any :
  Metadata → Collection → Res GetAnswer * Collection.

Lemma delete_docs_any_unfold_criteria (where_ : Metadata) w :
  let found := collection_get_any where_ (docs_collection w) in
  let w1 := after_call (CallGet where_) found.2 w in
  delete_docs_any collection_get_any None (Some where_) w
  = match found.1 with
    | Raise e => (Raise e, w1)
    | Ok records_to_delete =>
        match ids_of_answer records_to_delete with
        | Raise e => (Raise e, w1)
        | Ok ids =>
            let answer := collection_delete (Some ids) found.2 in
            (match answer.1 with Ok _ => Ok true | Raise e => Raise e end,
             after_call (CallDelete (Some ids)) answer.2 w1)
        end
    end.
Proof.
  intros found w1. unfold delete_docs_any, mbind at 1, M_bind at 1.
  unfold mbind at 1, M_bind at 1. unfold on_collection at 1.
  change (collection_get_any where_ (docs_collection w)) with found.
  destruct found as [[answered|e] coll] eqn:Hfound; [|done].
  unfold mbind at 1, M_bind at 1, lift. subst w1. cbn [fst snd].
  destruct (ids_of_answer answered) as [ids|e]; [|done].
  unfold mret at 1, M_ret at 1, mbind, M_bind, on_collection. simpl.
  by destruct (collection_delete (Some ids) coll) as [[[]|e] coll'].
Qed.

(** X9. Deleting by criteria, whatever the lookup answers. When the lookup
    raises, the lookup is the only call made. When it answers one dict of
    columns with at least one field, as chromadb's [Collection.get] does,
    the call raises TypeError after the lookup and the backend's delete is
    never reached. When it answers a sequence of records, a record without
    an id is a KeyError, again with no delete; otherwise the backend's delete
    is given the ids of the records found, in the order found, on the
    collection as the lookup left it, and the outcome is that of the
    delete. *)
Theorem delete_docs_by_criteria (where_ : Metadata) w :
  let found := collection_get_any where_ (docs_collection w) in
  let w1 := after_call (CallGet where_) found.2 w in
  let out := delete_docs_any collection_get_any None (Some where_) w in
  (∀ e, found.1 = Raise e → out = (Raise e, w1))
  ∧ (∀ fields, found.1 = Ok (Columns fields) → fields ≠ [] →
       out = (Raise TypeError, w1))
  ∧ (∀ records record,
       found.1 = Ok (Records records) →
       record ∈ records → record !! "id" = None →
       out = (Raise (KeyError "id"), w1))
  ∧ (∀ records ids,
       found.1 = Ok (Records records) →
       Forall2 (λ (record : gmap string string) id, record !! "id" = Some id)
               records ids →
       let answer := collection_delete (Some ids) found.2 in
       out = (match answer.1 with Ok _ => Ok true | Raise e => Raise e end,
              after_call (CallDelete (Some ids)) answer.2 w1)).
Proof.
  intros found w1 out. subst out. rewrite delete_docs_any_unfold_criteria.
  fold found w1. cbv zeta. split; [|split; [|split]].
  - by intros e ->.
  - intros fields -> Hfields. by destruct fields.
  - intros records record -> Hin Hnone. cbn [ids_of_answer].
    by rewrite (mapM_record_ids_missing _ _ Hin Hnone).
  - intros records ids -> Hids. cbn [ids_of_answer].
    by rewrite (mapM_record_ids records ids) by by apply mapM_Some_2.
Qed.

End CriteriaAnyLookup.

(** Given a lookup that answers records, [delete_docs_any] is
    [delete_docs]. *)
Lemma delete_docs_any_records (ids : option (list string))
    (metadata_criteria : option Metadata) w :
  delete_docs_any
    (λ where_ coll,
       (match (collection_get where_ coll).1 with
        | Ok records => Ok (Records records)
        | Raise e => Raise e
        end, (collection_get where_ coll).2))
    ids metadata_criteria w
  = delete_docs ids metadata_criteria w.
Proof.
  destruct ids as [ids|]; [done|].
  destruct metadata_criteria as [where_|]; [|done].
  rewrite delete_docs_any_unfold_criteria, delete_docs_unfold_criteria.
  cbv zeta. cbn [fst snd].
  destruct (collection_get where_ (docs_collection w)) as [[records|e] coll];
    [|done].
  cbn [fst snd ids_of_answer].
  destruct (mapM _ records) as [found|e]; [|done].
  by destruct (collection_delete (Some found) coll).1.
Qed.


(** X10. The value [add_docs] returns is no handle on what it stored.
    Whenever [add_docs] returns, the value is [None], and [delete_docs]
    given that value as ids hands [ids=None] to the backend's delete, on the
    collection as the add left it: it returns [True] when that delete
    returns, raises what it raises, and leaves the collection as it does. *)
Theorem delete_docs_of_add_docs_result (docs : list string)
    (ids : option (list string)) (metadatas : option (list Metadata))
    w (v : option (list string)) (w1 : World) :
  add_docs docs ids metadatas w = (Ok v, w1) →
  let added := collection_add docs metadatas
                 (default (generated_ids (length docs) w) ids)
                 (docs_collection w) in
  let answer := collection_delete None added.2 in
  v = None
  ∧ docs_collection w1 = added.2
  ∧ (delete_docs v None w1).1
    = match answer.1 with Ok _ => Ok true | Raise e => Raise e end
  ∧ docs_collection (delete_docs v None w1).2 = answer.2
  ∧ calls (delete_docs v None w1).2
    = calls w ++ [CallAdd docs metadatas
                          (default (generated_ids (length docs) w) ids);
                  CallDelete None].
Proof.
  rewrite add_docs_unfold. cbv zeta.
  destruct (collection_add _ _ _ _).1; [|done].
  intros [= <- <-]. rewrite delete_docs_unfold_nothing.
  cbn [fst snd calls docs_collection after_call]. rewrite <- app_assoc.
  split; [done|]. split; [by destruct ids|].
  split; [by destruct (collection_delete None _).1|].
  split; [done|]. by destruct ids.
Qed.

End MoreDeletion.

Lemma delete_docs_by_criteria_witness :
  delete_docs_any (B := Mock.backend) Mock.get_columns None (Some {["topic" := "x"]})
    (Mock.world Fixture.loaded)
  = (Raise TypeError,
     after_call (CallGet {["topic" := "x"]}) Fixture.loaded
       (Mock.world Fixture.loaded))
  ∧ (delete_docs_any (B := Mock.backend) Mock.get_records None (Some {["topic" := "x"]})
       (Mock.world Fixture.loaded)).1 = Ok true.
Proof.
  split.
  - eapply (proj1 (proj2 (delete_docs_by_criteria (B := Mock.backend)
                            Mock.get_columns
                            {["topic" := "x"]} (Mock.world Fixture.loaded))));
      [reflexivity|done].
  - rewrite (proj2 (proj2 (proj2 (delete_docs_by_criteria (B := Mock.backend)
                                    Mock.get_records
                                    {["topic" := "x"]}
                                    (Mock.world Fixture.loaded))))
               [Mock.record_dict ("1", "a", ∅); Mock.record_dict ("2", "b", ∅)]
               ["1"; "2"]); [reflexivity|reflexivity|repeat constructor].
Defined.

Lemma delete_docs_of_add_docs_result_witness :
  Mock.records
    (docs_collection
       (delete_docs None None
          (add_docs ["a"] (Some ["x"]) None (Mock.world Fixture.loaded)).2).2)
  = [].
Proof.
  destruct (delete_docs_of_add_docs_result ["a"] (Some ["x"]) None
              (Mock.world Fixture.loaded) None
              (add_docs ["a"] (Some ["x"]) None (Mock.world Fixture.loaded)).2
              eq_refl) as (_ & _ & _ & Hcoll & _).
  rewrite Hcoll. reflexivity.
Defined.

(** ** Generated ids *)

Lemma string_length_app (s t : string) :
  String.length (s +:+ t) = String.length s + String.length t.
Proof. induction s as [|a s IH]; [done|]. simpl. by rewrite IH. Qed.

Lemma string_app_inj_r (t s1 s2 : string) : s1 +:+ t = s2 +:+ t → s1 = s2.
Proof.
  revert s2. induction s1 as [|a s1 IH]; intros [|b s2] Heq; [done|..].
  - apply (f_equal String.length) in Heq.
    rewrite !string_length_app in Heq. simpl in Heq. lia.
  - apply (f_equal String.length) in Heq.
    rewrite !string_length_app in Heq. simpl in Heq. lia.
  - simpl in Heq. injection Heq as -> Heq. f_equal. by apply IH.
Qed.

Section MoreInsertion.
Context `{B : Backend}.
Implicit Types (w : World).

Lemma elem_of_generated_ids (n : nat) w (id : string) :
  id ∈ generated_ids n w ↔
  ∃ i, i < n ∧ id = uuid_values w (uuid_drawn w + i) +:+ "-docs".
Proof.
  unfold generated_ids. rewrite list_elem_of_fmap. split.
  - intros (i & -> & Hi%elem_of_seq). exists i. split; [lia|done].
  - intros (i & Hi & ->). exists i. split; [done|]. apply elem_of_seq. lia.
Qed.

Lemma generated_ids_NoDup (n : nat) w :
  Inj (=) (=) (uuid_values w) → NoDup (generated_ids n w).
Proof.
  intros Hinj. unfold generated_ids. apply NoDup_fmap_2_strong.
  - intros i j _ _ Heq. apply string_app_inj_r, Hinj in Heq. lia.
  - apply NoDup_seq.
Qed.

(** X11. Ids for two calls. When [ids] is omitted twice in a row, the
    backend's add is given, for each call, one id per document: the next
    values of [uuid.uuid4()], in the order drawn, each followed by "-docs";
    the second call goes on where the first stopped, whether or not the first
    add succeeded. Each call returns [None] when its add returns and raises
    what it raises. As long as [uuid.uuid4()] never repeats a value, no id
    occurs twice, within a call or across the two. *)
Theorem add_docs_generated_ids_fresh (docs1 docs2 : list string)
    (metadatas1 metadatas2 : option (list Metadata)) w :
  Inj (=) (=) (uuid_values w) →
  let ids1 := (λ i, uuid_values w (uuid_drawn w + i) +:+ "-docs")
                <$> seq 0 (length docs1) in
  let ids2 := (λ i, uuid_values w (uuid_drawn w + length docs1 + i)
                    +:+ "-docs")
                <$> seq 0 (length docs2) in
  let first := collection_add docs1 metadatas1 ids1 (docs_collection w) in
  let second := collection_add docs2 metadatas2 ids2 first.2 in
  let w1 := (add_docs docs1 None metadatas1 w).2 in
  (add_docs docs1 None metadatas1 w).1
  = match first.1 with Ok _ => Ok None | Raise e => Raise e end
  ∧ docs_collection w1 = first.2
  ∧ (add_docs docs2 None metadatas2 w1).1
    = match second.1 with Ok _ => Ok None | Raise e => Raise e end
  ∧ docs_collection (add_docs docs2 None metadatas2 w1).2 = second.2
  ∧ calls (add_docs docs2 None metadatas2 w1).2
    = calls w ++ [CallAdd docs1 metadatas1 ids1;
                  CallAdd docs2 metadatas2 ids2]
  ∧ length ids1 = length docs1 ∧ length ids2 = length docs2
  ∧ NoDup (ids1 ++ ids2).
Proof.
  intros Hinj ids1 ids2 first second w1.
  assert (ids1 = generated_ids (length docs1) w) as Hids1 by done.
  assert (ids2 = generated_ids (length docs2) w1) as Hids2.
  { subst w1. by rewrite add_docs_unfold. }
  assert (docs_collection w1 = first.2) as Hcoll1.
  { subst w1. by rewrite add_docs_unfold. }
  split; [by rewrite add_docs_unfold|]. split; [done|].
  rewrite (add_docs_unfold docs2). cbv zeta.
  cbn [default fst snd calls docs_collection after_call].
  rewrite <- Hids2, Hcoll1. fold second.
  split; [done|]. split; [done|]. split.
  { subst w1. rewrite add_docs_unfold. cbv zeta.
    cbn [default snd calls after_call drawn]. by rewrite <- app_assoc. }
  split; [by subst ids1; rewrite length_fmap, length_seq|].
  split; [by subst ids2; rewrite length_fmap, length_seq|].
  rewrite Hids1. clear Hids2.
  apply NoDup_app. split; [by apply generated_ids_NoDup|]. split.
  - intros id (i & Hi & ->)%elem_of_generated_ids Hin. subst ids2.
    apply list_elem_of_fmap in Hin as (j & Heq & _).
    apply string_app_inj_r, Hinj in Heq. lia.
  - subst ids2. apply NoDup_fmap_2_strong; [|apply NoDup_seq].
    intros i j _ _ Heq. apply string_app_inj_r, Hinj in Heq. lia.
Qed.

End MoreInsertion.

Lemma add_docs_generated_ids_fresh_witness :
  Mock.records
    (docs_collection
       (add_docs ["c"] None None
          (add_docs ["a"; "b"] None None (Mock.world Mock.empty)).2).2)
  = [("uuid0-docs", "a", ∅); ("uuid1-docs", "b", ∅); ("uuid2-docs", "c", ∅)].
Proof.
  destruct (add_docs_generated_ids_fresh ["a"; "b"] ["c"] None None
              (Mock.world Mock.empty)) as (_ & _ & _ & Hcoll & _).
  { intros i j Heq. simpl in Heq.
    by apply (inj (String.app "uuid")), (inj pretty) in Heq. }
  rewrite Hcoll. reflexivity.
Defined.

(** * Further properties of the constructor *)

Section MoreConstruction.
Context `{B : Backend}.

Lemma ChromaDB_init_Ok_inv settings args self coll :
  ChromaDB_init settings args = Ok (self, coll) →
  ∃ cs client,
    resolve_client_settings settings (persist_path args) (client_settings args)
      = Ok cs
    ∧ chromadb_Client cs = Ok client
    ∧ get_or_create_collection client (collection_name args)
        (default DEFAULT_EMBEDDING_FUNCTION (embedding_function args))
      = Ok coll
    ∧ self = {| _max_samples := max_samples args;
                _similarity_threshold := similary_threshold args;
                _client_settings := cs;
                _client := client;
                _persist_directory := persist_directory cs;
                _embedding_function :=
                  default DEFAULT_EMBEDDING_FUNCTION
                          (embedding_function args) |}.
Proof.
  unfold ChromaDB_init.
  destruct (resolve_client_settings _ _ _) as [cs|]; [|done]. simpl.
  destruct (chromadb_Client cs) as [client|] eqn:Hclient; [|done]. simpl.
  destruct (get_or_create_collection _ _ _) as [coll'|] eqn:Hcoll; [|done].
  simpl. intros [= <- <-]. by exists cs, client.
Qed.

(** X13. Where a constructed store keeps its data. Given client settings,
    the store uses them with their own flags, and their directory replaced
    by the path argument only if that is a non-empty string. Given none,
    the path argument is a non-empty string and the store uses fresh
    persistent settings, telemetry off, with that path. In both cases the
    application settings play no part: the constructor returns the same
    with any other. *)
Theorem ChromaDB_init_location settings args self coll :
  ChromaDB_init settings args = Ok (self, coll) →
  (∀ cs, client_settings args = Some cs →
     is_persistent (_client_settings self) = is_persistent cs
     ∧ anonymized_telemetry (_client_settings self) = anonymized_telemetry cs
     ∧ _persist_directory self
       = match persist_path args with
         | Some p => if decide (p = EmptyString) then persist_directory cs
                     else p
         | None => persist_directory cs
         end)
  ∧ (client_settings args = None →
     ∃ p, persist_path args = Some p ∧ p ≠ EmptyString
          ∧ _client_settings self
            = {| is_persistent := true; anonymized_telemetry := false;
                 persist_directory := p |})
  ∧ ∀ settings', ChromaDB_init settings' args = Ok (self, coll).
Proof.
  intros Hinit.
  pose proof Hinit as (cs & client & Hcs & Hclient & Hcoll & ->)
    %ChromaDB_init_Ok_inv.
  cbn [_client_settings _persist_directory].
  unfold resolve_client_settings in Hcs. split; [|split].
  - intros cs0 Hgiven. rewrite Hgiven in Hcs. injection Hcs as <-.
    cbn [set_persist_directory is_persistent anonymized_telemetry
         persist_directory].
    split; [done|]. split; [done|].
    destruct (persist_path args) as [[|a p]|]; done.
  - intros Hnone. rewrite Hnone in Hcs.
    destruct (persist_path args) as [[|a p]|]; simplify_eq/=.
    by exists (String a p).
  - intros settings'. rewrite <- Hinit. unfold ChromaDB_init.
    assert (resolve_client_settings settings' (persist_path args)
              (client_settings args)
            = resolve_client_settings settings (persist_path args)
                (client_settings args)) as ->; [|done].
    unfold resolve_client_settings.
    destruct (client_settings args) as [cs0|]; [done|].
    by destruct (persist_path args) as [[|a p]|].
Qed.

End MoreConstruction.

Lemma ChromaDB_init_location_witness :
  ∃ p, persist_path Fixture.args = Some p ∧ p ≠ EmptyString
       ∧ _client_settings Fixture.store
         = {| is_persistent := true; anonymized_telemetry := false;
              persist_directory := p |}.
Proof.
  apply (ChromaDB_init_location Fixture.app_settings Fixture.args
           Fixture.store Mock.empty); reflexivity.
Defined.

(** ** The shared settings object *)

Section SharedSettings.
Context `{B : Backend}.

Lemma str_truthy_nonempty (p : string) :
  p ≠ EmptyString → str_truthy (Some p) = Some p.
Proof. by destruct p. Qed.

(** Constructing from a settings object and a non-empty path assigns the
    path to the object, whatever the backend then does. *)
Lemma Obj_init_given settings (args : Obj.InitArgs)
    (h : gmap nat ChromaSettings) (l : nat) (obj : ChromaSettings)
    (p : string) :
  h !! l = Some obj →
  Obj.client_settings args = Some l →
  Obj.persist_path args = Some p → p ≠ EmptyString →
  (Obj.init settings args h).2 = <[l := set_persist_directory obj p]> h
  ∧ ∀ store coll, (Obj.init settings args h).1 = Ok (store, coll) →
      Obj._client_settings store = l ∧ Obj._persist_directory store = p.
Proof.
  intros Hobj Hl Hp Hne. unfold Obj.init, Obj.resolve_client_settings.
  rewrite Hl, Hobj, Hp, (str_truthy_nonempty p Hne). cbn [default].
  change (id p) with p.
  assert (Obj.assign_persist_directory l p h
          = <[l := set_persist_directory obj p]> h) as ->.
  { unfold Obj.assign_persist_directory. apply map_eq. intros k.
    rewrite lookup_alter, lookup_insert.
    destruct (decide (l = k)) as [<-|]; [by rewrite Hobj|done]. }
  split; [done|]. cbn [fst]. rewrite lookup_insert_eq. cbn [mbind res_bind].
  intros store coll.
  destruct (chromadb_Client _) as [client|]; [|done]. cbn [mbind res_bind].
  destruct (get_or_create_collection _ _ _) as [coll'|]; [|done].
  cbn [mbind res_bind]. by intros [= <- <-].
Qed.

(** X14. One settings object, two stores. A store constructed from a
    settings object keeps a reference to that object, and construction
    assigns a non-empty path argument to the object's directory, also when
    the constructor then fails. So after a second store is constructed from
    the same object with another path, the first store's
    [_client_settings.persist_directory] reads the second path, while its
    [_persist_directory] is still the first. No other object is touched. *)
Theorem ChromaDB_init_shared_settings settings (args1 args2 : Obj.InitArgs)
    (h : gmap nat ChromaSettings) (l : nat) (obj : ChromaSettings)
    (p1 p2 : string) :
  h !! l = Some obj →
  Obj.client_settings args1 = Some l →
  Obj.persist_path args1 = Some p1 → p1 ≠ EmptyString →
  Obj.client_settings args2 = Some l →
  Obj.persist_path args2 = Some p2 → p2 ≠ EmptyString →
  let first := Obj.init settings args1 h in
  let second := Obj.init settings args2 first.2 in
  first.2 = <[l := set_persist_directory obj p1]> h
  ∧ second.2 = <[l := set_persist_directory obj p2]> h
  ∧ ∀ store1 coll1, first.1 = Ok (store1, coll1) →
      Obj._client_settings store1 = l
      ∧ Obj._persist_directory store1 = p1
      ∧ Obj.client_settings_directory store1 first.2 = Some p1
      ∧ Obj.client_settings_directory store1 second.2 = Some p2
      ∧ ∀ store2 coll2, second.1 = Ok (store2, coll2) →
          Obj._client_settings store2 = Obj._client_settings store1
          ∧ Obj._persist_directory store2 = p2.
Proof.
  intros Hobj Hl1 Hp1 Hne1 Hl2 Hp2 Hne2 first second.
  destruct (Obj_init_given settings args1 h l obj p1) as [Hfirst Hstore1];
    [done..|].
  fold first in Hfirst, Hstore1.
  destruct (Obj_init_given settings args2 first.2 l
              (set_persist_directory obj p1) p2) as [Hsecond Hstore2];
    [by rewrite Hfirst, lookup_insert_eq|done..|].
  fold second in Hsecond, Hstore2.
  assert (second.2 = <[l := set_persist_directory obj p2]> h) as Hsecond'.
  { rewrite Hsecond, Hfirst. by rewrite insert_insert_eq. }
  split; [done|]. split; [done|].
  intros store1 coll1 [Hl Hdir]%Hstore1.
  unfold Obj.client_settings_directory.
  rewrite Hl, Hfirst, Hsecond', !lookup_insert_eq.
  repeat (split; [done|]).
  intros store2 coll2 [Hl' Hdir']%Hstore2. done.
Qed.

End SharedSettings.

Lemma ChromaDB_init_shared_settings_witness :
  Obj.client_settings_directory Fixture.obj_store
    (Obj.init Fixture.app_settings Fixture.obj_other_args
       (Obj.init Fixture.app_settings Fixture.obj_args Fixture.heap).2).2
  = Some "./other"
  ∧ Obj._persist_directory Fixture.obj_store = "./db".
Proof.
  destruct (ChromaDB_init_shared_settings (B := Mock.backend)
              Fixture.app_settings Fixture.obj_args Fixture.obj_other_args
              Fixture.heap 0 (config_Settings false true) "./db" "./other")
    as (_ & _ & Hstore); [done..|].
  destruct (Hstore Fixture.obj_store Mock.empty eq_refl)
    as (_ & Hdir & _ & Hread & _).
  done.
Defined.

(** ** Not-a-number *)

Lemma float_ltb_nan_l (t : float) : PrimFloat.ltb nan t = false.
Proof.
  rewrite ltb_spec. change (Prim2SF nan) with S754_nan. done.
Qed.

Lemma float_ltb_nan_r (d : float) : PrimFloat.ltb d nan = false.
Proof.
  rewrite ltb_spec. change (Prim2SF nan) with S754_nan.
  unfold SFltb, SFcompare. by destruct (Prim2SF d) as [[|]|[|]| |[|] m e].
Qed.

(** X15. Not-a-number never passes. With a NaN threshold every candidate
    is dropped: the four columns come back empty, without an error. And
    whatever the threshold and the input, no distance the function returns
    is NaN. *)
Theorem filter_docs_nan (docs : list string) (dists : list float)
    (metas : list Metadata) (ids : list string) :
  _filter_docs_based_on_distance (query_result docs dists metas ids) nan
  = Ok (query_result [] [] [] [])
  ∧ ∀ (raw r : QueryResult) (t : float) (col : list pyval),
      _filter_docs_based_on_distance raw t = Ok r →
      r !! "distances" = Some [col] →
      PFloat nan ∉ col.
Proof.
  split.
  - apply filter_docs_Ok.
    exists (PStr <$> docs), (PFloat <$> dists), (PDict <$> metas),
           (PStr <$> ids).
    repeat (split; [done|]). split; [apply zip4_typed_float_distance|].
    rewrite filter_below_nil; [done|].
    apply Forall_forall. intros d _. apply float_ltb_nan_r.
  - intros raw r t col
      (a & b & c & d & _ & _ & _ & _ & _ & ->)%filter_docs_Ok Hcol.
    change (columns (filter (below t) (zip4 a b c d)) !! "distances")
      with (Some [(filter (below t) (zip4 a b c d)).*1.*1.*2]) in Hcol.
    injection Hcol as <-. rewrite <- !list_fmap_compose.
    intros ([[[doc dist] meta] id] & Hdist & [Hbelow _]%list_elem_of_filter)
      %list_elem_of_fmap.
    simpl in Hdist. subst dist. unfold below in Hbelow. simpl in Hbelow.
    by rewrite float_ltb_nan_l in Hbelow.
Qed.

Lemma filter_docs_nan_witness :
  PFloat nan ∉ PFloat <$> [0.3; 0.9]%float.
Proof.
  apply (proj2 (filter_docs_nan [] [] [] [])
           (query_result ["a"; "b"; "c"] [0.3; nan; 0.9]%float [∅; ∅; ∅]
                         ["1"; "2"; "3"])
           (query_result ["a"; "c"] [0.3; 0.9]%float [∅; ∅] ["1"; "3"])
           1.5%float); reflexivity.
Defined.

Lemma get_relevant_docs_k_zero_witness :
  (get_relevant_docs Fixture.store "q" (Some 2%Z)
     (Mock.world Fixture.near)).1
  = Ok (query_result ["a"; "c"] [0.3; 0.9]%float [∅; ∅] ["1"; "3"]).
Proof.
  rewrite (proj2 (proj2 (get_relevant_docs_k_zero Fixture.store "q"
                           (Mock.world Fixture.near))) 2%Z); [|done].
  reflexivity.
Defined.
